(** * Keyword aggregation of the tech job dashboard

    A shallow embedding of the counting code of [dashboard.py]
    ([get_top_skills], the skill-pair loop of [main], the [is_remote]
    column of [load_data]) and of the [is_remote] column of [eda.py],
    together with the part of Python's [collections.Counter] they rely on;
    then of the other columns [load_data] derives, the sidebar filters and
    the figures of [main], and the keyword and salary scans of [eda.py].
    Dates, percentages and the drawing of charts are left out.

    Text is modelled by [string]: a sequence of code points below 256,
    compared the way Python compares [str] values (code point by code point,
    a proper prefix being smaller).  Job descriptions, in which the digits
    a pattern looks for reach beyond that range, are kept as lists of code
    points of any size. *)

From Stdlib Require Import List Arith ZArith Lia Bool.
From Stdlib Require Import Ascii String.
From Stdlib Require Import Permutation Sorted.
Import ListNotations.

Set Implicit Arguments.

(** ** Outcomes of a Python call *)

Inductive exn : Type := ValueError | TypeError | KeyError | AttributeError.

Inductive outcome (A : Type) : Type :=
| Returns (a : A)
| Raises (e : exn).

Arguments Returns {A} a.
Arguments Raises {A} e.

(** ** [collections.Counter] *)

Module Py.

Section CounterModel.

Variable K : Type.
Variable K_eq_dec : forall x y : K, {x = y} + {x <> y}.

(** A [Counter] is a [dict]: its items are kept in insertion order and no
    key occurs twice. *)
Definition counter : Type := list (K * nat).

(** [self[elem] = self.get(elem, 0) + 1] *)
Fixpoint incr (k : K) (c : counter) : counter :=
  match c with
  | [] => [(k, 1)]
  | (k', v) :: c' =>
      if K_eq_dec k k' then (k', S v) :: c' else (k', v) :: incr k c'
  end.

(** [Counter(iterable)]: one [incr] per element, left to right. *)
Definition Counter (l : list K) : counter :=
  fold_left (fun c k => incr k c) l [].

(** [c[k]]: the count of [k], and 0 for a key the dict does not hold
    ([Counter.__missing__]). *)
Fixpoint get (k : K) (c : counter) : nat :=
  match c with
  | [] => 0
  | (k', v) :: c' => if K_eq_dec k' k then v else get k c'
  end.

(** Every count a dict holds was produced by an increment. *)
Definition positive (c : counter) : Prop :=
  Forall (fun e => 0 < snd e) c.

(** [sorted(items, key=itemgetter(1), reverse=True)].  Python's sort is
    stable, also with [reverse=True]: items of equal count keep the order
    they have in the dict.  [insert_desc x s] puts [x], which precedes
    every item of [s] in the dict, in front of the first item whose count
    does not exceed its own. *)
Fixpoint insert_desc (x : K * nat) (s : list (K * nat)) : list (K * nat) :=
  match s with
  | [] => [x]
  | y :: s' => if snd y <=? snd x then x :: y :: s' else y :: insert_desc x s'
  end.

Fixpoint sorted_desc (c : list (K * nat)) : list (K * nat) :=
  match c with
  | [] => []
  | x :: c' => insert_desc x (sorted_desc c')
  end.

(** Counts that never increase from one item to the next. *)
Definition descending (s : list (K * nat)) : Prop :=
  StronglySorted (fun a b => snd b <= snd a) s.

(** [Counter.most_common(n)] is [heapq.nlargest(n, items, key=count)]:
    the first [n] items of the stable descending sort, and the empty list
    when [n <= 0] ([range(0, -n, -1)] is then empty). *)
Definition most_common (c : counter) (n : Z) : list (K * nat) :=
  if (n <=? 0)%Z then [] else firstn (Z.to_nat n) (sorted_desc c).

End CounterModel.

End Py.

(** ** Text operations of [str] and of [pandas.Series.str] *)

Module Text.

(** [str.lower()] on one code point below 256: the letters [A]-[Z] and the
    capital letters of Latin-1 (192-222 except the multiplication sign 215)
    move up by 32, every other code point stays. *)
Definition lower_char (c : ascii) : ascii :=
  let n := nat_of_ascii c in
  if ((65 <=? n) && (n <=? 90)) || ((192 <=? n) && (n <=? 222) && negb (n =? 215))
  then ascii_of_nat (n + 32)
  else c.

Fixpoint lower (s : string) : string :=
  match s with
  | EmptyString => EmptyString
  | String c s' => String (lower_char c) (lower s')
  end.

(** [Series.fillna(value)] on one cell. *)
Definition fillna (value : string) (cell : option string) : string :=
  match cell with
  | Some s => s
  | None => value
  end.

(** [re.match] of a pattern without metacharacters at the start of [s]. *)
Fixpoint match_at (pat s : string) : bool :=
  match pat, s with
  | EmptyString, _ => true
  | String _ _, EmptyString => false
  | String p pat', String c s' => Ascii.eqb p c && match_at pat' s'
  end.

(** The same under [re.IGNORECASE]: two code points match when their
    lower-case forms agree. *)
Fixpoint match_ci_at (pat s : string) : bool :=
  match pat, s with
  | EmptyString, _ => true
  | String _ _, EmptyString => false
  | String p pat', String c s' =>
      Ascii.eqb (lower_char p) (lower_char c) && match_ci_at pat' s'
  end.

(** [re.search] of an alternation [p1|p2|...] of such patterns: the first
    position of [s] at which one of the alternatives matches. *)
Fixpoint search (matches : string -> string -> bool) (alts : list string)
                (s : string) : bool :=
  existsb (fun pat => matches pat s) alts ||
  match s with
  | EmptyString => false
  | String _ s' => search matches alts s'
  end.

End Text.

(** ** dashboard.py *)

Module Dashboard.

(** A row of the loaded frame, with the columns the aggregation reads. *)
Record row : Type := mkRow {
  company : string;
  category : string;
  location : option string;
  keywords_list : list string
}.

Definition DataFrame : Type := list row.

(** [for skills in df['keywords_list']: all_skills.extend(skills)] *)
Definition all_skills (df : DataFrame) : list string :=
  fold_left (fun acc skills => acc ++ skills) (map keywords_list df) [].

(** [def get_top_skills(df, n=20)] *)
Definition get_top_skills (df : DataFrame) (n : Z) : outcome (list (string * nat)) :=
  Returns (Py.most_common (Py.Counter string_dec (all_skills df)) n).

(** [tuple(sorted([a, b]))]: the two strings are swapped exactly when the
    second is smaller than the first. *)
Definition sorted2 (a b : string) : string * string :=
  if String.ltb b a then (b, a) else (a, b).

Definition pair_dec (p q : string * string) : {p = q} + {p <> q}.
Proof. decide equality; apply string_dec. Defined.

(** [for j in range(i+1, len(skills))] *)
Definition pairs_at (skills : list string) (i : nat) : list (string * string) :=
  map (fun j => sorted2 (nth i skills EmptyString) (nth j skills EmptyString))
      (seq (i + 1) (List.length skills - (i + 1))).

(** The body of the loop over rows: the guard [len(skills) >= 2] and the
    loop [for i in range(len(skills))]. *)
Definition row_pairs (skills : list string) : list (string * string) :=
  if 2 <=? List.length skills
  then flat_map (pairs_at skills) (seq 0 (List.length skills))
  else [].

(** [skill_pairs] after the loop over [filtered_df['keywords_list']]. *)
Definition skill_pairs (df : DataFrame) : list (string * string) :=
  fold_left (fun acc skills => acc ++ row_pairs skills) (map keywords_list df) [].

(** [pair_counts = Counter(skill_pairs).most_common(10)] *)
Definition pair_counts (df : DataFrame) : list ((string * string) * nat) :=
  Py.most_common (Py.Counter pair_dec (skill_pairs df)) 10.

(** [df['location'].fillna('').str.lower().str.contains('remote')], on the
    location cell of one row. *)
Definition is_remote (location : option string) : bool :=
  Text.search Text.match_at ["remote"%string]
              (Text.lower (Text.fillna EmptyString location)).

End Dashboard.

(** ** eda.py *)

Module Pandas.

(** A column of the file, cell by cell: [Some s] is a cell read as the
    text [s], [None] a cell left empty (NaN).  The column holds text
    (dtype object) when one of its cells does, or when it has no row; a
    column all of whose cells are empty is read as numbers. *)
Definition holds_text (A : Type) (column : list (option A)) : bool :=
  match column with
  | [] => true
  | _ :: _ => existsb (fun cell => match cell with
                                   | Some _ => true
                                   | None => false
                                   end) column
  end.

(** [column.str.method(...)]: the method is applied cell by cell; the
    [.str] accessor exists on a column that holds text only, and raises
    [AttributeError] on any other. *)
Definition str_accessor (A B : Type) (method : option A -> B)
           (column : list (option A)) : outcome (list B) :=
  if holds_text column then Returns (map method column)
  else Raises AttributeError.

End Pandas.

Module Eda.

Definition remote_keywords : list string :=
  ["remote"; "anywhere"; "global"; "worldwide"; "work from home"; "wfh"]%string.

(** [str.contains('|'.join(remote_keywords), case=False, na=False)] on one
    cell of a column that holds text; [na=False] gives [False] for an
    empty cell. *)
Definition contains_remote_keyword (location : option string) : bool :=
  match location with
  | None => false
  | Some s => Text.search Text.match_ci_at remote_keywords s
  end.

(** [df['is_remote'] = df['location'].str.contains(
    '|'.join(remote_keywords), case=False, na=False)]: the column is not
    filled before [.str] is taken. *)
Definition is_remote (locations : list (option string)) : outcome (list bool) :=
  Pandas.str_accessor contains_remote_keyword locations.

End Eda.

(** ** More of [str]: [split], [strip] *)

Module Str.

(** [str.isspace()] on one code point below 256: tab to carriage return,
    the four separators 28-31, the space, next line (133) and the
    no-break space (160). *)
Definition is_space (c : ascii) : bool :=
  let n := nat_of_ascii c in
  ((9 <=? n) && (n <=? 13)) || ((28 <=? n) && (n <=? 32)) ||
  (n =? 133) || (n =? 160).

(** [s.split(sep)] for a separator of one character: the pieces between
    the separators, empty pieces included; the empty string gives one
    empty piece. *)
Fixpoint split (sep : ascii) (s : string) : list string :=
  match s with
  | EmptyString => [EmptyString]
  | String c s' =>
      if Ascii.eqb c sep then EmptyString :: split sep s'
      else match split sep s' with
           | [] => [String c EmptyString]
           | w :: ws => String c w :: ws
           end
  end.

Fixpoint lstrip (s : string) : string :=
  match s with
  | EmptyString => EmptyString
  | String c s' => if is_space c then lstrip s' else s
  end.

Fixpoint rstrip (s : string) : string :=
  match s with
  | EmptyString => EmptyString
  | String c s' =>
      match rstrip s' with
      | EmptyString => if is_space c then EmptyString else String c EmptyString
      | String d r => String c (String d r)
      end
  end.

(** [s.strip()] *)
Definition strip (s : string) : string := rstrip (lstrip s).

(** The truth value of a string: it is not empty. *)
Definition truthy (s : string) : bool :=
  match s with
  | EmptyString => false
  | String _ _ => true
  end.

End Str.

(** ** Text by code points *)

Module Codepoints.

(** A job description is kept as the list of its code points, of any
    size: the digits a pattern can meet reach beyond Latin-1. *)
Definition text : Type := list N.

Definition dollar : N := 36.

Definition comma : N := 44.

(** The class [[0-9]]. *)
Definition is_ascii_digit (c : N) : bool := ((48 <=? c) && (c <=? 57))%N.

(** [Series.fillna('')] on one cell. *)
Definition fillna_empty (cell : option text) : text :=
  match cell with
  | Some s => s
  | None => []
  end.

(** [re.search] of a pattern given by its matcher at a position. *)
Fixpoint search_at (matches : text -> bool) (s : text) : bool :=
  matches s ||
  match s with
  | [] => false
  | _ :: s' => search_at matches s'
  end.

End Codepoints.

(** ** dashboard.py: the columns [load_data] derives *)

Module LoadData.

(** A row of the CSV file; a cell the file leaves empty is read as NaN. *)
Record csv_row : Type := mkCsv {
  csv_company : string;
  csv_category : string;
  csv_location : option string;
  csv_keywords : option string;
  csv_job_description : option Codepoints.text
}.

(** [df['keywords'].fillna('').apply(lambda x: [k.strip().lower()
    for k in str(x).split(',') if k.strip()])], on one cell. *)
Definition keywords_list (keywords : option string) : list string :=
  map (fun k => Text.lower (Str.strip k))
      (filter (fun k => Str.truthy (Str.strip k))
              (Str.split ","%char (Text.fillna EmptyString keywords))).

Section DigitClass.

(** The class [\d] of [re] on [str]: the decimal digits of the Unicode
    tables of the running Python, the digits 0 to 9 among them. *)
Variable is_decimal : N -> bool.

(** The pattern [\$\d] at a position: a dollar sign, then a decimal
    digit. *)
Definition dollar_digit_at (s : Codepoints.text) : bool :=
  match s with
  | c :: d :: _ => (c =? Codepoints.dollar)%N && is_decimal d
  | _ => false
  end.

(** [df['job_description'].fillna('').str.contains(r'\$\d', case=False)],
    on one cell; neither the dollar sign nor a digit has a second case. *)
Definition has_salary (job_description : option Codepoints.text) : bool :=
  Codepoints.search_at dollar_digit_at (Codepoints.fillna_empty job_description).

End DigitClass.

(** The frame [load_data] returns, with the columns of [Dashboard.row].
    The parsing of the date column, which can fail and make [load_data]
    give up, is left out. *)
Definition load_data (rows : list csv_row) : Dashboard.DataFrame :=
  map (fun r => Dashboard.mkRow (csv_company r) (csv_category r)
                                (csv_location r)
                                (keywords_list (csv_keywords r)))
      rows.

End LoadData.

(** ** dashboard.py: the filters and the figures of [main] *)

Module Main.

Import Dashboard.

(** The sidebar filters.  The [is_remote] column of a loaded frame holds
    [is_remote] of the row's location. *)
Definition apply_filters (df : DataFrame) (selected_category remote_option : string)
  : DataFrame :=
  let filtered_df :=
    if negb (String.eqb selected_category "All")
    then filter (fun r => String.eqb (category r) selected_category) df
    else df in
  if String.eqb remote_option "Remote Only"
  then filter (fun r => Bool.eqb (is_remote (location r)) true) filtered_df
  else if String.eqb remote_option "On-site Only"
  then filter (fun r => Bool.eqb (is_remote (location r)) false) filtered_df
  else filtered_df.

(** The "Unique Skills" figure: [len(get_top_skills(filtered_df, 1000))]. *)
Definition unique_skills (filtered_df : DataFrame) : outcome nat :=
  match get_top_skills filtered_df 1000 with
  | Returns all_skills => Returns (List.length all_skills)
  | Raises e => Raises e
  end.

(** [top_skill = get_top_skills(filtered_df, 1)[0]
    if get_top_skills(filtered_df, 1) else ('N/A', 0)] *)
Definition top_skill (filtered_df : DataFrame) : outcome (string * nat) :=
  match get_top_skills filtered_df 1 with
  | Returns (first :: _) => Returns first
  | Returns [] => Returns ("N/A"%string, 0)
  | Raises e => Raises e
  end.

End Main.

(** ** eda.py: keywords and salary mentions *)

Module EdaKeywords.

(** The body of the loop over [df['keywords'].dropna()]: the cell is split
    when it holds a comma and taken whole otherwise, and the empty string
    and the text nan are left out. *)
Definition extract (keywords_str : string) : list string :=
  let keywords_list :=
    if Text.search Text.match_at [","%string] keywords_str
    then map (fun k => Text.lower (Str.strip k)) (Str.split ","%char keywords_str)
    else [Text.lower (Str.strip keywords_str)] in
  filter (fun k => Str.truthy k && negb (String.eqb k "nan")) keywords_list.

(** [all_keywords] after the loop; [dropna] skips the empty cells. *)
Definition all_keywords (cells : list (option string)) : list string :=
  fold_left (fun acc cell =>
               match cell with
               | Some keywords_str => acc ++ extract keywords_str
               | None => acc
               end) cells [].

(** The pattern [\$[0-9,]+] at a position: a dollar sign, then at least
    one digit 0 to 9 or comma. *)
Definition dollar_amount_at (s : Codepoints.text) : bool :=
  match s with
  | c :: d :: _ =>
      (c =? Codepoints.dollar)%N &&
      (Codepoints.is_ascii_digit d || (d =? Codepoints.comma)%N)
  | _ => false
  end.

(** [str.contains(salary_pattern, case=False, na=False)] on one cell of a
    column that holds text. *)
Definition matches_salary_pattern (job_description : option Codepoints.text) : bool :=
  match job_description with
  | None => false
  | Some s => Codepoints.search_at dollar_amount_at s
  end.

(** [df['job_description'].str.contains(salary_pattern, case=False,
    na=False)]: the column is not filled before [.str] is taken. *)
Definition mentions_salary (job_descriptions : list (option Codepoints.text))
  : outcome (list bool) :=
  Pandas.str_accessor matches_salary_pattern job_descriptions.

End EdaKeywords.

(** ** Sample frames *)

Module Samples.

Import Dashboard.

Definition posting (skills : list string) : row :=
  mkRow "acme" "backend" (Some "Berlin"%string) skills.

(** The frames of the four examples of the specification. *)
Definition example1 : DataFrame :=
  [posting ["python"; "aws"]; posting ["python"; "docker"]; posting ["python"]]%string.

Definition example2 : DataFrame := [posting ["python"; "aws"]]%string.

Definition example3 : DataFrame := [].

Definition example4 : DataFrame := [posting ["go"; "go"; "rust"]]%string.

(** Two frames with the same rows in a different order. *)
Definition rust_then_go : DataFrame := [posting ["rust"]; posting ["go"]]%string.

Definition go_then_rust : DataFrame := [posting ["go"]; posting ["rust"]]%string.

End Samples.

(** * Properties *)

(** ** Counting *)

Section CounterFacts.

Variable K : Type.
Variable K_eq_dec : forall x y : K, {x = y} + {x <> y}.

Local Abbreviation incr := (Py.incr K_eq_dec).
Local Abbreviation get := (Py.get K_eq_dec).
Local Abbreviation Counter := (Py.Counter K_eq_dec).
Local Abbreviation fold_incr := (fold_left (fun c k => Py.incr K_eq_dec k c)).

Local Abbreviation positive := (@Py.positive K).

Ltac cases :=
  repeat (match goal with
          | |- context [K_eq_dec ?a ?b] => destruct (K_eq_dec a b)
          | H : context [K_eq_dec ?a ?b] |- _ => destruct (K_eq_dec a b)
          end; simpl in *; subst; try congruence; try tauto).

Lemma get_incr k k' c :
  get k' (incr k c) = if K_eq_dec k k' then S (get k' c) else get k' c.
Proof.
  induction c as [| [k0 v] c IH]; simpl; cases.
Qed.

Lemma in_keys_incr k k' c :
  In k' (map fst (incr k c)) <-> k' = k \/ In k' (map fst c).
Proof.
  induction c as [| [k0 v] c IH]; simpl; cases; intuition congruence.
Qed.

Lemma NoDup_keys_incr k c :
  NoDup (map fst c) -> NoDup (map fst (incr k c)).
Proof.
  induction c as [| [k0 v] c IH]; simpl; intros H.
  - constructor; [intros [] | constructor].
  - inversion H as [| ? ? Hk0 Hc]; subst. cases.
    constructor; [| now apply IH].
    rewrite in_keys_incr. intros [-> | Hin]; [congruence | tauto].
Qed.

Lemma positive_incr k c : positive c -> positive (incr k c).
Proof.
  unfold Py.positive.
  induction c as [| [k0 v] c IH]; simpl; intros H.
  - repeat constructor.
  - inversion H; subst. cases; constructor; simpl; auto with arith.
Qed.

Lemma sum_incr k c :
  list_sum (map snd (incr k c)) = S (list_sum (map snd c)).
Proof.
  induction c as [| [k0 v] c IH]; simpl; cases; try rewrite IH; lia.
Qed.

(** The loop of [Counter(iterable)], started from any dict. *)
Lemma get_fold_incr l : forall c k,
  get k (fold_incr l c) = get k c + count_occ K_eq_dec l k.
Proof.
  induction l as [| x l IH]; intros c k; simpl; [lia |].
  rewrite IH, get_incr. destruct (K_eq_dec x k); lia.
Qed.

Lemma in_keys_fold_incr l : forall c k,
  In k (map fst (fold_incr l c)) <-> In k l \/ In k (map fst c).
Proof.
  induction l as [| x l IH]; intros c k; simpl; [tauto |].
  rewrite IH, in_keys_incr. intuition congruence.
Qed.

Lemma NoDup_keys_fold_incr l : forall c,
  NoDup (map fst c) -> NoDup (map fst (fold_incr l c)).
Proof.
  induction l as [| x l IH]; intros c H; simpl; auto using NoDup_keys_incr.
Qed.

Lemma positive_fold_incr l : forall c,
  positive c -> positive (fold_incr l c).
Proof.
  induction l as [| x l IH]; intros c H; simpl; auto using positive_incr.
Qed.

Lemma sum_fold_incr l : forall c,
  list_sum (map snd (fold_incr l c)) = list_sum (map snd c) + List.length l.
Proof.
  induction l as [| x l IH]; intros c; simpl; [lia |].
  rewrite IH, sum_incr. lia.
Qed.

(** What [Counter(l)] holds. *)
Lemma Counter_get l k : get k (Counter l) = count_occ K_eq_dec l k.
Proof. unfold Py.Counter. now rewrite get_fold_incr. Qed.

Lemma Counter_keys l k : In k (map fst (Counter l)) <-> In k l.
Proof. unfold Py.Counter. rewrite in_keys_fold_incr. simpl. tauto. Qed.

Lemma Counter_NoDup_keys l : NoDup (map fst (Counter l)).
Proof. apply NoDup_keys_fold_incr. constructor. Qed.

Lemma Counter_positive l : positive (Counter l).
Proof. apply positive_fold_incr. constructor. Qed.

Lemma Counter_sum l : list_sum (map snd (Counter l)) = List.length l.
Proof. unfold Py.Counter. now rewrite sum_fold_incr. Qed.

Lemma get_of_item k v c :
  NoDup (map fst c) -> In (k, v) c -> get k c = v.
Proof.
  induction c as [| [k0 v0] c IH]; simpl; intros Hnd Hin; [tauto |].
  inversion Hnd as [| ? ? Hk0 Hc]; subst.
  destruct Hin as [Heq | Hin].
  - inversion Heq; subst. cases.
  - cases. exfalso. apply Hk0. now apply (in_map fst) in Hin.
Qed.

Lemma item_of_key k c : In k (map fst c) -> In (k, get k c) c.
Proof.
  induction c as [| [k0 v0] c IH]; simpl; [tauto |].
  intros [-> | Hin]; cases; auto.
Qed.

Lemma Counter_items l k v :
  In (k, v) (Counter l) <-> v = count_occ K_eq_dec l k /\ 0 < v.
Proof.
  split.
  - intros Hin. split.
    + rewrite <- Counter_get. symmetry.
      apply get_of_item; auto using Counter_NoDup_keys.
    + pose proof (Counter_positive l) as Hp. unfold Py.positive in Hp.
      rewrite Forall_forall in Hp. apply (Hp (k, v) Hin).
  - intros [-> Hpos]. rewrite <- Counter_get. apply item_of_key.
    apply Counter_keys. now apply (count_occ_In K_eq_dec).
Qed.

Lemma Counter_length l :
  List.length (Counter l) = List.length (nodup K_eq_dec l).
Proof.
  rewrite <- (length_map fst). apply Permutation_length.
  apply NoDup_Permutation; auto using Counter_NoDup_keys, NoDup_nodup.
  intros k. rewrite Counter_keys, nodup_In. tauto.
Qed.

End CounterFacts.

(** ** Sorting by count and selecting the first items *)

Lemma Forall_firstn_keep (A : Type) (P : A -> Prop) (l : list A) :
  Forall P l -> forall n, Forall P (firstn n l).
Proof.
  induction 1 as [| x l Hx Hl IH]; intros [| n]; simpl; constructor; auto.
Qed.

Lemma sorted_ge_unique (l : list nat) : forall l',
  StronglySorted ge l -> StronglySorted ge l' -> Permutation l l' -> l = l'.
Proof.
  induction l as [| a l IH]; intros l' Hl Hl' HP.
  - apply Permutation_nil in HP. now subst.
  - destruct l' as [| b l'].
    + symmetry in HP. apply Permutation_nil in HP. discriminate.
    + apply StronglySorted_inv in Hl as [Hl Ha].
      apply StronglySorted_inv in Hl' as [Hl' Hb].
      rewrite Forall_forall in Ha, Hb.
      assert (a = b) as ->.
      { assert (In a (b :: l')) as [Hab | Hab]
          by (apply (Permutation_in _ HP); now left).
        - now symmetry.
        - assert (In b (a :: l)) as [Hba | Hba]
            by (apply (Permutation_in _ (Permutation_sym HP)); now left).
          + assumption.
          + specialize (Ha _ Hba). specialize (Hb _ Hab). lia. }
      f_equal. apply IH; auto. now apply Permutation_cons_inv in HP.
Qed.

Section SortFacts.

Variable K : Type.

Local Abbreviation insert_desc := (@Py.insert_desc K).
Local Abbreviation sorted_desc := (@Py.sorted_desc K).
Local Abbreviation descending := (@Py.descending K).
Local Abbreviation most_common := (@Py.most_common K).

Lemma insert_desc_perm x s : Permutation (insert_desc x s) (x :: s).
Proof.
  induction s as [| y s IH]; simpl; [reflexivity |].
  destruct (snd y <=? snd x); [reflexivity |].
  rewrite IH. apply perm_swap.
Qed.

Lemma sorted_desc_perm c : Permutation (sorted_desc c) c.
Proof.
  induction c as [| x c IH]; simpl; [reflexivity |].
  rewrite insert_desc_perm. now constructor.
Qed.

Lemma insert_desc_descending x s :
  descending s -> descending (insert_desc x s).
Proof.
  unfold Py.descending.
  induction s as [| y s IH]; simpl; intros Hs.
  - repeat constructor.
  - pose proof Hs as Hys. apply StronglySorted_inv in Hs as [Hs Hy].
    destruct (snd y <=? snd x) eqn:E.
    + apply Nat.leb_le in E. constructor; [assumption |].
      constructor; [assumption |].
      apply Forall_impl with (2 := Hy). intros z Hz. lia.
    + apply Nat.leb_gt in E. constructor; [now apply IH |].
      apply (Permutation_Forall (Permutation_sym (insert_desc_perm x s))).
      constructor; [lia | assumption].
Qed.

Lemma sorted_desc_descending c : descending (sorted_desc c).
Proof.
  induction c as [| x c IH]; simpl.
  - constructor.
  - now apply insert_desc_descending.
Qed.

(** The sort is stable: the items of any one count come out in the order
    the dict holds them, that of their first occurrence. *)
Lemma insert_desc_filter v x s :
  filter (fun e => snd e =? v) (insert_desc x s) =
  if snd x =? v
  then x :: filter (fun e => snd e =? v) s
  else filter (fun e => snd e =? v) s.
Proof.
  induction s as [| y s IH]; simpl; [reflexivity |].
  destruct (snd y <=? snd x) eqn:E; simpl; [reflexivity |].
  rewrite IH. apply Nat.leb_gt in E.
  destruct (snd x =? v) eqn:Ex; destruct (snd y =? v) eqn:Ey; try reflexivity.
  apply Nat.eqb_eq in Ex, Ey. lia.
Qed.

Lemma sorted_desc_stable v c :
  filter (fun e => snd e =? v) (sorted_desc c) = filter (fun e => snd e =? v) c.
Proof.
  induction c as [| x c IH]; simpl; [reflexivity |].
  now rewrite insert_desc_filter, IH.
Qed.

Lemma descending_firstn s n : descending s -> descending (firstn n s).
Proof.
  unfold Py.descending. intros Hs. revert n.
  induction Hs as [| x s Hs IH Hx]; intros [| n]; simpl; constructor; auto.
  now apply Forall_firstn_keep.
Qed.

Lemma descending_counts s : descending s -> StronglySorted ge (map snd s).
Proof.
  unfold Py.descending.
  induction 1 as [| x s Hs IH Hx]; simpl; constructor; auto.
  rewrite Forall_map. apply Forall_impl with (2 := Hx). intros z Hz. lia.
Qed.

Lemma sorted_ge_nth (l : list nat) :
  StronglySorted ge l ->
  forall i j, i <= j -> j < List.length l -> nth j l 0 <= nth i l 0.
Proof.
  induction 1 as [| x l Hl IH Hx]; intros i j Hij Hj; simpl in *; [lia |].
  destruct j as [| j]; destruct i as [| i]; try lia.
  - rewrite Forall_forall in Hx.
    assert (x >= nth j l 0) by (apply Hx, nth_In; lia). lia.
  - apply IH; lia.
Qed.

(** Two frames holding the same items have the same sequence of counts
    once sorted, whatever the order of the items before the sort. *)
Lemma sorted_desc_counts c c' :
  Permutation c c' ->
  map snd (sorted_desc c) = map snd (sorted_desc c').
Proof.
  intros HP. apply sorted_ge_unique.
  - apply descending_counts, sorted_desc_descending.
  - apply descending_counts, sorted_desc_descending.
  - apply Permutation_map.
    rewrite !sorted_desc_perm. assumption.
Qed.

Lemma most_common_nonpos c n : (n <= 0)%Z -> most_common c n = [].
Proof.
  intros Hn. unfold Py.most_common.
  destruct (Z.leb_spec n 0); [reflexivity | lia].
Qed.

Lemma most_common_pos c n :
  (0 < n)%Z -> most_common c n = firstn (Z.to_nat n) (sorted_desc c).
Proof.
  intros Hn. unfold Py.most_common.
  destruct (Z.leb_spec n 0); [lia | reflexivity].
Qed.

Lemma most_common_incl c n e : In e (most_common c n) -> In e c.
Proof.
  unfold Py.most_common. destruct (n <=? 0)%Z; simpl; [tauto |].
  intros Hin. apply (Permutation_in _ (sorted_desc_perm c)).
  rewrite <- (firstn_skipn (Z.to_nat n)). apply in_or_app. now left.
Qed.

Lemma most_common_all c n :
  (Z.of_nat (List.length c) <= n)%Z -> Permutation (most_common c n) c.
Proof.
  intros Hn. unfold Py.most_common.
  destruct (Z.leb_spec n 0).
  - destruct c; [reflexivity | simpl in Hn; lia].
  - rewrite firstn_all2; [apply sorted_desc_perm |].
    rewrite (Permutation_length (sorted_desc_perm c)). lia.
Qed.

Lemma most_common_descending c n : descending (most_common c n).
Proof.
  unfold Py.most_common. destruct (n <=? 0)%Z.
  - constructor.
  - apply descending_firstn, sorted_desc_descending.
Qed.

Lemma most_common_length c n :
  (0 < n)%Z ->
  Z.of_nat (List.length (most_common c n)) = Z.min n (Z.of_nat (List.length c)).
Proof.
  intros Hn. rewrite most_common_pos by assumption.
  rewrite length_firstn, (Permutation_length (sorted_desc_perm c)). lia.
Qed.

End SortFacts.

(** ** Counting is insensitive to the order of the counted list *)

Section CounterOrder.

Variable K : Type.
Variable K_eq_dec : forall x y : K, {x = y} + {x <> y}.

Lemma Counter_perm (l l' : list K) :
  Permutation l l' ->
  Permutation (Py.Counter K_eq_dec l) (Py.Counter K_eq_dec l').
Proof.
  intros HP. apply NoDup_Permutation.
  - apply NoDup_map_inv with (f := fst), Counter_NoDup_keys.
  - apply NoDup_map_inv with (f := fst), Counter_NoDup_keys.
  - intros [k v]. rewrite !Counter_items.
    rewrite (Permutation_count_occ K_eq_dec) in HP. now rewrite HP.
Qed.

End CounterOrder.

(** ** The loops that gather keywords and pairs *)

Lemma fold_left_app_concat (A B : Type) (f : A -> list B) (l : list A) :
  forall acc, fold_left (fun acc x => acc ++ f x) l acc = acc ++ List.concat (map f l).
Proof.
  induction l as [| x l IH]; intros acc; simpl.
  - now rewrite app_nil_r.
  - now rewrite IH, app_assoc.
Qed.

Lemma Permutation_concat (A : Type) (l l' : list (list A)) :
  Permutation l l' -> Permutation (List.concat l) (List.concat l').
Proof.
  induction 1 as [| x l l' HP IH | x y l | l l' l'' HP IH HP' IH']; simpl.
  - reflexivity.
  - now apply Permutation_app_head.
  - rewrite !app_assoc. apply Permutation_app_tail, Permutation_app_comm.
  - now transitivity (List.concat l').
Qed.

Lemma all_skills_concat (df : Dashboard.DataFrame) :
  Dashboard.all_skills df = List.concat (map Dashboard.keywords_list df).
Proof.
  unfold Dashboard.all_skills.
  rewrite (fold_left_app_concat (fun skills : list string => skills)).
  now rewrite map_id.
Qed.

Lemma all_skills_length (df : Dashboard.DataFrame) :
  List.length (Dashboard.all_skills df) =
  list_sum (map (fun r => List.length (Dashboard.keywords_list r)) df).
Proof.
  rewrite all_skills_concat, length_concat, map_map. reflexivity.
Qed.

(** ** [get_top_skills] *)

Section TopSkills.

Import Dashboard.

Variable df : DataFrame.

Local Abbreviation skills_counter := (Py.Counter string_dec (all_skills df)).

(** The keywords of the frame, each once. *)
Local Abbreviation distinct := (nodup string_dec (List.concat (map keywords_list df))).

Lemma get_top_skills_returns n :
  get_top_skills df n = Returns (Py.most_common skills_counter n).
Proof. reflexivity. Qed.

Lemma skills_counter_length :
  List.length skills_counter = List.length distinct.
Proof. now rewrite Counter_length, all_skills_concat. Qed.

(** C4 (as the code has it): a call with a non-positive [n] signals
    nothing; it returns the empty list. *)
Theorem get_top_skills_nonpositive_returns_empty (n : Z) :
  (n <= 0)%Z ->
  get_top_skills df n = Returns [] /\
  forall e, get_top_skills df n <> Raises e.
Proof.
  intros Hn. rewrite get_top_skills_returns, most_common_nonpos by assumption.
  split; [reflexivity | discriminate].
Qed.

(** C5: for a positive [n], [get_top_skills] returns at most [n] entries,
    every returned count is greater than 0, and the counts never increase
    from the first returned entry to the last. *)
Theorem get_top_skills_bounded_positive_descending (n : Z) :
  (0 < n)%Z ->
  exists top,
    get_top_skills df n = Returns top /\
    (Z.of_nat (List.length top) <= n)%Z /\
    (forall k c, In (k, c) top -> 0 < c) /\
    (forall i j, i <= j -> j < List.length top ->
                 nth j (map snd top) 0 <= nth i (map snd top) 0).
Proof.
  intros Hn. eexists. split; [apply get_top_skills_returns |].
  split; [| split].
  - rewrite most_common_length by assumption. lia.
  - intros k c Hin. apply most_common_incl in Hin.
    now apply Counter_items in Hin.
  - intros i j Hij Hj. apply sorted_ge_nth.
    + apply descending_counts, most_common_descending.
    + assumption.
    + now rewrite length_map.
Qed.

(** C6: with [n] the number of distinct keywords, the returned counts add
    up to the number of keyword occurrences in the keyword lists of all
    rows; every keyword is returned with its number of occurrences. *)
Theorem get_top_skills_all_counts_sum :
  exists top,
    get_top_skills df (Z.of_nat (List.length distinct)) = Returns top /\
    list_sum (map snd top) =
      list_sum (map (fun r => List.length (keywords_list r)) df) /\
    (forall k, In k (List.concat (map keywords_list df)) ->
               In (k, count_occ string_dec (List.concat (map keywords_list df)) k) top).
Proof.
  eexists. split; [apply get_top_skills_returns |].
  assert (Permutation
            (Py.most_common skills_counter (Z.of_nat (List.length distinct)))
            skills_counter) as HP.
  { apply most_common_all. rewrite skills_counter_length. lia. }
  split.
  - rewrite HP, Counter_sum. apply all_skills_length.
  - intros k Hk. apply (Permutation_in _ (Permutation_sym HP)).
    rewrite <- all_skills_concat in *. apply Counter_items. split; [reflexivity |].
    now apply (count_occ_In string_dec).
Qed.

(** C9: for a positive [n], the result has exactly
    [min n (number of distinct keywords)] entries. *)
Theorem get_top_skills_length (n : Z) :
  (0 < n)%Z ->
  exists top,
    get_top_skills df n = Returns top /\
    Z.of_nat (List.length top) = Z.min n (Z.of_nat (List.length distinct)).
Proof.
  intros Hn. eexists. split; [apply get_top_skills_returns |].
  rewrite most_common_length by assumption.
  now rewrite skills_counter_length.
Qed.

(** C10: [get_top_skills] returns for every integer [n], never raising,
    and returns the empty list when [n <= 0]. *)
Theorem get_top_skills_total (n : Z) :
  exists top,
    get_top_skills df n = Returns top /\
    (forall e, get_top_skills df n <> Raises e) /\
    ((n <= 0)%Z -> top = []).
Proof.
  eexists. split; [apply get_top_skills_returns |].
  split; [discriminate |].
  apply most_common_nonpos.
Qed.

End TopSkills.

Lemma filter_nil_iff (A : Type) (p : A -> bool) (l : list A) :
  filter p l = []%list <-> forall x, In x l -> p x = false.
Proof.
  induction l as [| a l IH]; simpl; [split; [intros _ x [] | reflexivity] |].
  destruct (p a) eqn:E.
  - split; [discriminate |]. intros H. specialize (H a (or_introl eq_refl)). congruence.
  - rewrite IH. split.
    + intros H x [<- | Hx]; auto.
    + intros H x Hx. apply H. now right.
Qed.

(** ** Where the cut by [n] falls *)

Section Cut.

Variable K : Type.

Local Abbreviation sorted_desc := (@Py.sorted_desc K).

Lemma descending_app_order (l1 l2 : list (K * nat)) :
  Py.descending (l1 ++ l2) ->
  forall x y, In x l1 -> In y l2 -> snd y <= snd x.
Proof.
  unfold Py.descending.
  induction l1 as [| a l1 IH]; simpl; intros H x y Hx Hy; [contradiction |].
  apply StronglySorted_inv in H as [H Ha].
  destruct Hx as [<- | Hx]; [| now apply (IH H x y)].
  rewrite Forall_forall in Ha. apply Ha, in_or_app. now right.
Qed.

(** A descending list is its items of count at least [c] followed by its
    items of smaller count. *)
Lemma descending_split c (s : list (K * nat)) :
  Py.descending s ->
  s = filter (fun e => c <=? snd e) s ++ filter (fun e => negb (c <=? snd e)) s.
Proof.
  unfold Py.descending.
  induction 1 as [| x s Hs IH Hx]; simpl; [reflexivity |].
  destruct (c <=? snd x) eqn:E; simpl; [now rewrite <- IH |].
  apply Nat.leb_gt in E. rewrite Forall_forall in Hx.
  assert (filter (fun e => c <=? snd e) s = []) as ->.
  { apply filter_nil_iff. intros y Hy. apply Nat.leb_gt.
    specialize (Hx y Hy). lia. }
  simpl. f_equal. symmetry. apply forallb_filter_id, forallb_forall.
  intros y Hy. apply negb_true_iff, Nat.leb_gt. specialize (Hx y Hy). lia.
Qed.

Lemma filter_perm_length (A : Type) (p : A -> bool) (l l' : list A) :
  Permutation l l' -> List.length (filter p l) = List.length (filter p l').
Proof.
  induction 1 as [| x l l' HP IH | x y l | l l' l'' HP IH HP' IH']; simpl.
  - reflexivity.
  - destruct (p x); simpl; now rewrite IH.
  - destruct (p x); destruct (p y); reflexivity.
  - now rewrite IH.
Qed.

Lemma in_firstn_in (A : Type) (x : A) n l : In x (firstn n l) -> In x l.
Proof.
  intros H. rewrite <- (firstn_skipn n l). apply in_or_app. now left.
Qed.

(** An item that the cut keeps and whose count no item behind the cut
    shares is kept whatever order the dict had. *)
Lemma cut_keeps (C C' : list (K * nat)) n x :
  Permutation C C' ->
  In x (firstn n (sorted_desc C)) ->
  (forall y, In y (skipn n (sorted_desc C)) -> snd y <> snd x) ->
  In x (firstn n (sorted_desc C')).
Proof.
  intros HP Hx Hcut.
  set (c := snd x) in *.
  pose proof (sorted_desc_descending C) as Hd.
  pose proof (sorted_desc_descending C') as Hd'.
  pose proof (descending_split c Hd) as Hs.
  pose proof (descending_split c Hd') as Hs'.
  assert (Permutation (sorted_desc C) (sorted_desc C')) as HPs
      by (rewrite !sorted_desc_perm; exact HP).
  pose proof (filter_perm_length (fun e => c <=? snd e) HPs) as Hlen.
  set (A := filter (fun e => c <=? snd e) (sorted_desc C)) in *.
  set (A' := filter (fun e => c <=? snd e) (sorted_desc C')) in *.
  assert (List.length A <= n) as HA.
  { destruct (Nat.le_gt_cases (List.length A) n) as [Hle | Hgt]; [exact Hle |].
    exfalso.
    assert (skipn n A <> []) as Hne.
    { intros E. pose proof (length_skipn n A) as Hl. rewrite E in Hl. simpl in Hl. lia. }
    destruct (skipn n A) as [| y rest] eqn:Ey; [congruence |].
    assert (In y A) as HyA.
    { rewrite <- (firstn_skipn n A), Ey. apply in_or_app. right. now left. }
    assert (In y (skipn n (sorted_desc C))) as Hy.
    { rewrite Hs, skipn_app. fold A. rewrite Ey. now left. }
    apply (Hcut y Hy).
    apply filter_In in HyA as [_ Hge]. apply Nat.leb_le in Hge.
    rewrite <- (firstn_skipn n (sorted_desc C)) in Hd.
    pose proof (descending_app_order _ _ Hd x y Hx Hy) as Hle. fold c in Hle. lia. }
  assert (In x A') as HxA'.
  { apply filter_In. split; [| apply Nat.leb_refl].
    apply (Permutation_in _ HPs). now apply in_firstn_in in Hx. }
  rewrite Hs', firstn_app. fold A'. apply in_or_app. left.
  rewrite firstn_all2 by lia. exact HxA'.
Qed.

Lemma NoDup_app_disjoint (A : Type) (l1 l2 : list A) a :
  NoDup (l1 ++ l2) -> In a l1 -> In a l2 -> False.
Proof.
  induction l1 as [| b l1 IH]; simpl; intros H H1 H2; [contradiction |].
  inversion H as [| ? ? Hb Hrest]; subst.
  destruct H1 as [-> | H1]; [| now apply IH].
  apply Hb, in_or_app. now right.
Qed.

End Cut.

(** ** [get_top_skills] and the order of the rows *)

Section Reordering.

Import Dashboard.

Variables df df' : DataFrame.
Hypothesis same_lists :
  Permutation (map keywords_list df) (map keywords_list df').

Lemma all_skills_perm : Permutation (all_skills df) (all_skills df').
Proof. rewrite !all_skills_concat. now apply Permutation_concat. Qed.

Lemma skills_counter_perm :
  Permutation (Py.Counter string_dec (all_skills df))
              (Py.Counter string_dec (all_skills df')).
Proof. apply Counter_perm, all_skills_perm. Qed.

Lemma most_common_counts_perm n :
  map snd (Py.most_common (Py.Counter string_dec (all_skills df)) n) =
  map snd (Py.most_common (Py.Counter string_dec (all_skills df')) n).
Proof.
  unfold Py.most_common. destruct (n <=? 0)%Z; [reflexivity |].
  rewrite <- !firstn_map. f_equal.
  apply sorted_desc_counts, skills_counter_perm.
Qed.

End Reordering.

Section ReorderingClaim.

Import Dashboard.

Lemma skills_sorted_NoDup (df : DataFrame) :
  NoDup (map fst (Py.sorted_desc (Py.Counter string_dec (all_skills df)))).
Proof.
  apply (Permutation_NoDup
           (Permutation_map fst
              (Permutation_sym (sorted_desc_perm (Py.Counter string_dec (all_skills df)))))).
  apply Counter_NoDup_keys.
Qed.

Lemma most_common_NoDup (df : DataFrame) n :
  NoDup (Py.most_common (Py.Counter string_dec (all_skills df)) n).
Proof.
  unfold Py.most_common. destruct (n <=? 0)%Z; [constructor |].
  pose proof (skills_sorted_NoDup df) as H.
  apply NoDup_map_inv in H.
  rewrite <- (firstn_skipn (Z.to_nat n)) in H.
  now apply NoDup_app_remove_r in H.
Qed.

(** An entry of the result whose count no keyword outside the result has
    is in the result for the reordered frame too. *)
Lemma most_common_entry_kept (df df' : DataFrame) n k c :
  Permutation (map keywords_list df) (map keywords_list df') ->
  In (k, c) (Py.most_common (Py.Counter string_dec (all_skills df)) n) ->
  (forall k',
      ~ In k' (map fst (Py.most_common (Py.Counter string_dec (all_skills df)) n)) ->
      count_occ string_dec (all_skills df) k' <> c) ->
  In (k, c) (Py.most_common (Py.Counter string_dec (all_skills df')) n).
Proof.
  intros HP. unfold Py.most_common.
  destruct (n <=? 0)%Z; [intros [] |].
  intros Hin Hcut.
  apply (@cut_keeps _ _ _ (Z.to_nat n) (k, c) (@skills_counter_perm df df' HP) Hin).
  intros [k' v] Hy. simpl.
  assert (In (k', v) (Py.Counter string_dec (all_skills df))) as Hitem.
  { apply (Permutation_in _ (sorted_desc_perm _)).
    rewrite <- (firstn_skipn (Z.to_nat n)). apply in_or_app. now right. }
  apply Counter_items in Hitem as [-> _].
  apply Hcut. intros Hk'.
  pose proof (skills_sorted_NoDup df) as Hnd.
  rewrite <- (firstn_skipn (Z.to_nat n)
                (Py.sorted_desc (Py.Counter string_dec (all_skills df)))),
    map_app in Hnd.
  apply (NoDup_app_disjoint _ _ k' Hnd Hk').
  apply in_map_iff. exists (k', count_occ string_dec (all_skills df) k'). auto.
Qed.

(** C7 (as the code has it): for two frames whose keyword lists are a
    reordering of one another, the two results carry the same sequence of
    counts, and every returned keyword carries its number of occurrences,
    which is the same in both frames.  A returned entry whose count no
    keyword outside the result has is returned for the other frame too;
    so when no keyword outside the result has the count of a returned one,
    and in particular when [n] is at least the number of distinct
    keywords, the two results hold the same entries.  Which keywords of a
    group of equal count survive a cut by [n] is left to the order of the
    rows. *)
Theorem get_top_skills_reordering (df df' : DataFrame) (n : Z) :
  Permutation (map keywords_list df) (map keywords_list df') ->
  exists top top',
    get_top_skills df n = Returns top /\
    get_top_skills df' n = Returns top' /\
    map snd top = map snd top' /\
    (forall k c, In (k, c) top \/ In (k, c) top' ->
                 c = count_occ string_dec (List.concat (map keywords_list df)) k /\
                 c = count_occ string_dec (List.concat (map keywords_list df')) k) /\
    (forall k c,
        In (k, c) top ->
        (forall k', ~ In k' (map fst top) ->
                    count_occ string_dec (List.concat (map keywords_list df)) k' <> c) ->
        In (k, c) top') /\
    ((forall k c k',
         In (k, c) top -> ~ In k' (map fst top) ->
         count_occ string_dec (List.concat (map keywords_list df)) k' <> c) ->
     Permutation top top') /\
    ((Z.of_nat (List.length (nodup string_dec (List.concat (map keywords_list df)))) <= n)%Z ->
     Permutation top top').
Proof.
  intros HP. do 2 eexists.
  split; [apply get_top_skills_returns |].
  split; [apply get_top_skills_returns |].
  pose proof (@all_skills_perm df df' HP) as Hs.
  pose proof (@skills_counter_perm df df' HP) as Hc.
  pose proof (@most_common_counts_perm df df' HP n) as Hcounts.
  split; [exact Hcounts |].
  split; [| split; [| split]].
  - rewrite <- !all_skills_concat.
    rewrite (Permutation_count_occ string_dec) in Hs.
    intros k c [Hin | Hin]; apply most_common_incl, Counter_items in Hin;
      destruct Hin as [-> _]; rewrite Hs; auto.
  - rewrite <- all_skills_concat. intros k c Hin Hcut.
    now apply (@most_common_entry_kept df df' n k c HP).
  - rewrite <- all_skills_concat. intros Hcut.
    apply NoDup_Permutation_bis.
    + apply most_common_NoDup.
    + rewrite <- (length_map snd), <- Hcounts, length_map. apply le_n.
    + intros [k c] Hin. apply (@most_common_entry_kept df df' n k c HP Hin).
      intros k' Hk'. exact (Hcut k c k' Hin Hk').
  - intros Hn.
    rewrite most_common_all by (rewrite skills_counter_length; lia).
    rewrite most_common_all; [assumption |].
    rewrite <- (Permutation_length Hc), skills_counter_length. lia.
Qed.

End ReorderingClaim.

(** ** The skill pairs of [main] *)

Section Pairs.

Import Dashboard.

Lemma skill_pairs_concat (df : DataFrame) :
  skill_pairs df = List.concat (map (fun r => row_pairs (keywords_list r)) df).
Proof.
  unfold skill_pairs. rewrite (fold_left_app_concat row_pairs). simpl.
  now rewrite map_map.
Qed.

Lemma pairs_at_length skills i :
  List.length (pairs_at skills i) = List.length skills - (i + 1).
Proof. unfold pairs_at. now rewrite length_map, length_seq. Qed.

(** The inner loop runs [m - 1], [m - 2], ..., [m - k] times for the first
    [k] values of [i]. *)
Lemma triangle_sum m : forall k,
  k <= m ->
  2 * list_sum (map (fun i => m - (i + 1)) (seq 0 k)) + k * k + k = 2 * k * m.
Proof.
  induction k as [| k IH]; intros Hk; [reflexivity |].
  rewrite seq_S, map_app, list_sum_app. simpl.
  assert (k <= m) as Hk' by lia. specialize (IH Hk'). nia.
Qed.

Lemma row_pairs_length skills :
  List.length (row_pairs skills) =
  List.length skills * (List.length skills - 1) / 2.
Proof.
  unfold row_pairs. destruct (Nat.leb_spec 2 (List.length skills)) as [Hk | Hk].
  - rewrite length_flat_map.
    rewrite (map_ext _ (fun i => List.length skills - (i + 1)))
      by (intros i; apply pairs_at_length).
    pose proof (@triangle_sum (List.length skills) (List.length skills) (le_n _)) as Ht.
    apply Nat.div_unique_exact; [discriminate | nia].
  - destruct (List.length skills) as [| [| k]]; try lia; reflexivity.
Qed.

Lemma in_row_pairs skills p :
  In p (row_pairs skills) <->
  exists i j, i < j /\ j < List.length skills /\
              p = sorted2 (nth i skills EmptyString) (nth j skills EmptyString).
Proof.
  unfold row_pairs. destruct (Nat.leb_spec 2 (List.length skills)) as [Hk | Hk].
  - rewrite in_flat_map. split.
    + intros (i & Hi & Hp). unfold pairs_at in Hp.
      apply in_map_iff in Hp as (j & <- & Hj).
      apply in_seq in Hi, Hj. exists i, j. repeat split; lia.
    + intros (i & j & Hij & Hj & ->). exists i. split.
      * apply in_seq. lia.
      * unfold pairs_at. apply in_map_iff. exists j. split; [reflexivity |].
        apply in_seq. lia.
  - split; [intros [] | intros (i & j & Hij & Hj & _); lia].
Qed.

Lemma skill_pairs_length (df : DataFrame) :
  List.length (skill_pairs df) =
  list_sum (map (fun r => List.length (keywords_list r) *
                          (List.length (keywords_list r) - 1) / 2) df).
Proof.
  rewrite skill_pairs_concat, length_concat, map_map.
  f_equal. apply map_ext. intros r. apply row_pairs_length.
Qed.

Lemma sorted2_ordered a b :
  String.leb (fst (sorted2 a b)) (snd (sorted2 a b)) = true.
Proof.
  unfold sorted2, String.ltb, String.leb.
  destruct (String.compare b a) eqn:E; simpl.
  - rewrite String.compare_antisym, E. reflexivity.
  - rewrite E. reflexivity.
  - rewrite String.compare_antisym, E. reflexivity.
Qed.

Lemma skill_pairs_ordered (df : DataFrame) a b :
  In (a, b) (skill_pairs df) -> String.leb a b = true.
Proof.
  rewrite skill_pairs_concat. intros Hin.
  apply in_concat in Hin as (ps & Hps & Hin).
  apply in_map_iff in Hps as (r & <- & _).
  apply in_row_pairs in Hin as (i & j & _ & _ & Heq).
  pose proof (sorted2_ordered (nth i (keywords_list r) EmptyString)
                              (nth j (keywords_list r) EmptyString)) as Ho.
  rewrite <- Heq in Ho. exact Ho.
Qed.

Lemma pair_counts_items (df : DataFrame) p c :
  In (p, c) (pair_counts df) -> In p (skill_pairs df) /\ 0 < c.
Proof.
  unfold pair_counts. intros Hin.
  apply most_common_incl, Counter_items in Hin. destruct Hin as [-> Hc].
  split; [| assumption]. now apply (count_occ_In pair_dec).
Qed.

Lemma leb_neq_ltb a b : String.leb a b = true -> a <> b -> String.ltb a b = true.
Proof.
  unfold String.leb, String.ltb. intros Hle Hne.
  destruct (String.compare a b) eqn:E; try easy.
  apply String.compare_eq_iff in E. contradiction.
Qed.

Lemma sorted2_components x y a b :
  sorted2 x y = (a, b) -> (a = x /\ b = y) \/ (a = y /\ b = x).
Proof.
  unfold sorted2. destruct (String.ltb y x); intros H; injection H as <- <-; tauto.
Qed.

Lemma sorted2_same a : sorted2 a a = (a, a).
Proof. unfold sorted2. now destruct (String.ltb a a). Qed.

Lemma skill_pairs_origin (df : DataFrame) a b :
  In (a, b) (skill_pairs df) ->
  exists r i j,
    In r df /\ i < j /\ j < List.length (keywords_list r) /\
    sorted2 (nth i (keywords_list r) EmptyString)
            (nth j (keywords_list r) EmptyString) = (a, b).
Proof.
  rewrite skill_pairs_concat. intros H.
  apply in_concat in H as (ps & Hps & H).
  apply in_map_iff in Hps as (r & <- & Hr).
  apply in_row_pairs in H as (i & j & Hij & Hj & H).
  exists r, i, j. auto.
Qed.

Lemma self_pair_repeated (df : DataFrame) a :
  In (a, a) (skill_pairs df) ->
  exists r l1 l2 l3,
    In r df /\ keywords_list r = l1 ++ a :: l2 ++ a :: l3.
Proof.
  intros H. apply skill_pairs_origin in H as (r & i & j & Hr & Hij & Hj & H).
  apply sorted2_components in H.
  assert (nth i (keywords_list r) EmptyString = a /\
          nth j (keywords_list r) EmptyString = a) as [Hi Hjv]
      by (destruct H as [[-> ->] | [-> ->]]; auto).
  destruct (nth_split (keywords_list r) EmptyString Hj) as (L1 & l3 & HL & Hlen).
  rewrite Hjv in HL.
  assert (nth i L1 EmptyString = a) as Hi'.
  { rewrite HL, app_nth1 in Hi by lia. exact Hi. }
  assert (i < List.length L1) as Hi1 by lia.
  destruct (nth_split L1 EmptyString Hi1) as (l1 & l2 & HL1 & _).
  rewrite Hi' in HL1.
  exists r, l1, l2, l3. split; [assumption |].
  rewrite HL, HL1, <- app_assoc. reflexivity.
Qed.

(** C1: the pairs come from one row at a time, by positions [i < j] of
    that row's keyword list: a list of length [k] yields [k*(k-1)/2] pairs
    (none for length 0 or 1), and so many increments of the pair counts. *)
Theorem skill_pairs_within_rows (df : DataFrame) :
  skill_pairs df = List.concat (map (fun r => row_pairs (keywords_list r)) df) /\
  (forall skills p,
      In p (row_pairs skills) <->
      exists i j, i < j /\ j < List.length skills /\
                  p = sorted2 (nth i skills EmptyString) (nth j skills EmptyString)) /\
  (forall skills,
      List.length (row_pairs skills) =
      List.length skills * (List.length skills - 1) / 2) /\
  row_pairs [] = [] /\
  (forall k, row_pairs [k] = []) /\
  list_sum (map snd (Py.Counter pair_dec (skill_pairs df))) =
    list_sum (map (fun r => List.length (keywords_list r) *
                            (List.length (keywords_list r) - 1) / 2) df).
Proof.
  split; [apply skill_pairs_concat |].
  split; [apply in_row_pairs |].
  split; [apply row_pairs_length |].
  split; [reflexivity |].
  split; [reflexivity |].
  rewrite Counter_sum. apply skill_pairs_length.
Qed.

(** C2: on the single row with keywords go, go, rust the loop gathers
    (go, go) from positions (0,1) and (go, rust) from positions (0,2) and
    (1,2); the counted entries are ((go, go), 1) and ((go, rust), 2), the
    larger count first. *)
Theorem pair_counts_example4 :
  skill_pairs Samples.example4 =
    [("go", "go"); ("go", "rust"); ("go", "rust")]%string /\
  pair_counts Samples.example4 =
    [(("go", "rust"), 2); (("go", "go"), 1)]%string /\
  Permutation (pair_counts Samples.example4)
    [(("go", "go"), 1); (("go", "rust"), 2)]%string.
Proof.
  split; [reflexivity |]. split; [reflexivity |]. apply perm_swap.
Qed.

(** C3 (as the code has it): in every pair entry the first keyword is not
    greater than the second; the count is positive; when the two keywords
    differ the first is smaller and the reversed pair has no entry; and an
    entry pairs a keyword with itself only when some row holds that
    keyword at two places of its list. *)
Theorem pair_counts_canonical (df : DataFrame) a b c :
  In ((a, b), c) (pair_counts df) ->
  String.leb a b = true /\
  0 < c /\
  (a <> b ->
   String.ltb a b = true /\ forall c', ~ In ((b, a), c') (pair_counts df)) /\
  (a = b ->
   exists r l1 l2 l3,
     In r df /\ keywords_list r = l1 ++ a :: l2 ++ a :: l3).
Proof.
  intros Hin. apply pair_counts_items in Hin as [Hin Hc].
  pose proof (skill_pairs_ordered df _ _ Hin) as Hle.
  split; [assumption |]. split; [assumption |]. split.
  - intros Hne. split; [now apply leb_neq_ltb |].
    intros c' Hin'. apply pair_counts_items in Hin' as [Hin' _].
    apply skill_pairs_ordered in Hin'.
    apply Hne. now apply String.leb_antisym.
  - intros <-. now apply self_pair_repeated.
Qed.

End Pairs.

(** ** The [is_remote] columns *)

Section RemoteFlag.

Import Text.
Local Open Scope string_scope.

Lemma match_at_spec pat : forall s,
  match_at pat s = true <-> exists rest, s = pat ++ rest.
Proof.
  induction pat as [| p pat IH]; intros s; simpl.
  - split; [intros _; now exists s | reflexivity].
  - destruct s as [| c s].
    + split; [discriminate | intros [rest H]; discriminate].
    + rewrite andb_true_iff, Ascii.eqb_eq, IH. split.
      * intros [-> [rest ->]]. now exists rest.
      * intros [rest H]. injection H as -> ->. split; [reflexivity | now exists rest].
Qed.

Lemma match_ci_at_spec pat : forall s,
  match_ci_at pat s = true <->
  exists w rest, s = w ++ rest /\ lower w = lower pat.
Proof.
  induction pat as [| p pat IH]; intros s; simpl.
  - split; [intros _; now exists "", s | reflexivity].
  - destruct s as [| c s].
    + split; [discriminate |].
      intros ([| c w] & rest & H & Hl); simpl in *; discriminate.
    + rewrite andb_true_iff, Ascii.eqb_eq, IH. split.
      * intros [Hc (w & rest & -> & Hl)]. exists (String c w), rest.
        simpl. now rewrite Hl, Hc.
      * intros ([| c' w] & rest & H & Hl); simpl in *; [discriminate |].
        injection H as -> ->. injection Hl as Hc Hl.
        split; [now symmetry | now exists w, rest].
Qed.

Lemma search_spec matches alts : forall s,
  search matches alts s = true <->
  exists a s', s = a ++ s' /\
               exists pat, In pat alts /\ matches pat s' = true.
Proof.
  induction s as [| c s IH]; simpl; rewrite orb_true_iff, existsb_exists.
  - split.
    + intros [Hex | Hf]; [| discriminate]. now exists "", "".
    + intros ([| c a] & s' & H & Hex); simpl in H; [| discriminate].
      subst s'. now left.
  - rewrite IH. split.
    + intros [Hex | (a & s' & -> & Hex)].
      * now exists "", (String c s).
      * now exists (String c a), s'.
    + intros ([| c' a] & s' & H & Hex); simpl in H.
      * subst s'. now left.
      * injection H as -> ->. right. now exists a, s'.
Qed.

Lemma lower_app a : forall b, lower (a ++ b) = lower a ++ lower b.
Proof. induction a as [| c a IH]; intros b; simpl; [| rewrite IH]; reflexivity. Qed.

Lemma lower_split x : forall s y,
  lower s = x ++ y -> exists a b, s = a ++ b /\ lower a = x /\ lower b = y.
Proof.
  induction x as [| c x IH]; intros s y H; simpl in H.
  - now exists "", s.
  - destruct s as [| d s]; simpl in H; [discriminate |].
    injection H as Hc H. apply IH in H as (a & b & -> & Ha & Hb).
    exists (String d a), b. simpl. now rewrite Ha, Hc.
Qed.

Lemma remote_keywords_lower kw :
  In kw Eda.remote_keywords -> lower kw = kw.
Proof.
  unfold Eda.remote_keywords. simpl.
  intros H. repeat (destruct H as [<- | H]; [reflexivity |]). contradiction.
Qed.

(** [dashboard.py]: the flag is set exactly when some stretch of the
    location reads "remote" once lower-cased. *)
Lemma dashboard_is_remote_spec (location : option string) :
  Dashboard.is_remote location = true <->
  exists s a w b, location = Some s /\ s = a ++ w ++ b /\ lower w = "remote".
Proof.
  unfold Dashboard.is_remote. rewrite search_spec. split.
  - intros (a' & s' & Hl & pat & [<- | []] & Hm).
    apply match_at_spec in Hm as [rest ->].
    destruct location as [s |]; simpl in Hl.
    + apply lower_split in Hl as (a & t & -> & _ & Ht).
      apply (@lower_split "remote" t rest) in Ht as (w & b & -> & Hw & _).
      now exists (a ++ w ++ b), a, w, b.
    + destruct a'; discriminate.
  - intros (s & a & w & b & -> & -> & Hw). simpl.
    exists (lower a), ("remote" ++ lower b). split.
    + now rewrite !lower_app, Hw.
    + exists "remote". split; [now left |].
      apply match_at_spec. now exists (lower b).
Qed.

(** [eda.py]: the flag is set exactly when some stretch of the location
    reads as one of the six indicator phrases once lower-cased. *)
Lemma contains_remote_keyword_spec (location : option string) :
  Eda.contains_remote_keyword location = true <->
  exists s kw a w b,
    location = Some s /\ In kw Eda.remote_keywords /\
    s = a ++ w ++ b /\ lower w = kw.
Proof.
  destruct location as [s |]; simpl.
  - rewrite search_spec. split.
    + intros (a & s' & -> & pat & Hin & Hm).
      apply match_ci_at_spec in Hm as (w & b & -> & Hw).
      rewrite (remote_keywords_lower Hin) in Hw.
      now exists (a ++ w ++ b), pat, a, w, b.
    + intros (s0 & kw & a & w & b & Hs & Hin & -> & Hw).
      injection Hs as ->.
      exists a, (w ++ b). split; [reflexivity |].
      exists kw. split; [assumption |].
      apply match_ci_at_spec. exists w, b. split; [reflexivity |].
      now rewrite (remote_keywords_lower Hin).
  - split; [discriminate | intros (s & kw & a & w & b & H & _); discriminate].
Qed.

Lemma holds_text_some (A : Type) (column : list (option A)) s :
  In (Some s) column -> Pandas.holds_text column = true.
Proof.
  intros H. destruct column as [| cell column]; [reflexivity |].
  unfold Pandas.holds_text. apply existsb_exists. now exists (Some s).
Qed.

Lemma holds_text_all_absent (A : Type) (column : list (option A)) :
  column <> []%list -> Forall (fun cell => cell = None) column ->
  Pandas.holds_text column = false.
Proof.
  intros Hne Hall. destruct column as [| cell column]; [congruence |].
  unfold Pandas.holds_text.
  apply not_true_is_false. intros H. apply existsb_exists in H as (c & Hc & Ht).
  rewrite Forall_forall in Hall. rewrite (Hall c Hc) in Ht. discriminate Ht.
Qed.

Lemma str_accessor_returns (A B : Type) (method : option A -> B) column :
  Pandas.holds_text column = true ->
  Pandas.str_accessor method column = Returns (map method column).
Proof. unfold Pandas.str_accessor. now intros ->. Qed.

Lemma Forall2_map_right (A B : Type) (f : A -> B) (R : A -> B -> Prop) l :
  (forall x, R x (f x)) -> Forall2 R l (map f l).
Proof. intros H. induction l as [| x l IH]; simpl; constructor; auto. Qed.

(** On a column of empty cells only, line 108 of [eda.py] does not derive
    the flag: taking [.str] raises. *)
Lemma eda_is_remote_all_absent (locations : list (option string)) :
  locations <> []%list -> Forall (fun cell => cell = None) locations ->
  Eda.is_remote locations = Raises AttributeError.
Proof.
  intros Hne Hall. unfold Eda.is_remote, Pandas.str_accessor.
  now rewrite holds_text_all_absent.
Qed.



End RemoteFlag.

(** ** Runs on the sample frames *)

Section Runs.

Import Dashboard.
Local Open Scope string_scope.

(** Example 1 of the specification. *)
Example get_top_skills_example1 :
  get_top_skills Samples.example1 2 = Returns [("python", 3); ("aws", 1)].
Proof. reflexivity. Qed.

(** Example 2 of the specification. *)
Example pair_counts_example2 :
  pair_counts Samples.example2 = [(("aws", "python"), 1)].
Proof. reflexivity. Qed.

(** Example 3 of the specification. *)
Example empty_frame :
  get_top_skills Samples.example3 20 = Returns [] /\
  pair_counts Samples.example3 = [].
Proof. split; reflexivity. Qed.

(** C3 fails as stated: the row go, go, rust yields an entry that pairs
    go with itself, and go is not smaller than go. *)
Lemma pair_counts_self_pair :
  In (("go", "go"), 1) (pair_counts Samples.example4) /\
  String.ltb "go" "go" = false.
Proof. split; [right; left; reflexivity | reflexivity]. Qed.

Lemma pair_counts_canonical_witness :
  String.leb "go" "go" = true /\
  0 < 1 /\
  ("go" <> "go" ->
   String.ltb "go" "go" = true /\
   forall c', ~ In (("go", "go"), c') (pair_counts Samples.example4)) /\
  ("go" = "go" ->
   exists r l1 l2 l3,
     In r Samples.example4 /\
     keywords_list r = (l1 ++ "go" :: l2 ++ "go" :: l3)%list).
Proof.
  apply (@pair_counts_canonical Samples.example4 "go" "go" 1).
  right. left. reflexivity.
Defined.

(** C4 fails as stated: calls with [n = 0] and [n = -3] return the empty
    list and raise nothing. *)
Lemma get_top_skills_nonpositive_no_error :
  get_top_skills Samples.example1 0 = Returns [] /\
  get_top_skills Samples.example1 (-3) = Returns [] /\
  ~ (exists e, get_top_skills Samples.example1 0 = Raises e) /\
  ~ (exists e, get_top_skills Samples.example1 (-3) = Raises e).
Proof.
  split; [reflexivity |]. split; [reflexivity |].
  split; intros [e H]; discriminate H.
Qed.

Lemma get_top_skills_nonpositive_witness :
  get_top_skills Samples.example1 (-3) = Returns [] /\
  forall e, get_top_skills Samples.example1 (-3) <> Raises e.
Proof.
  apply (@get_top_skills_nonpositive_returns_empty Samples.example1 (-3)%Z).
  lia.
Defined.

Lemma get_top_skills_bounded_witness :
  exists top,
    get_top_skills Samples.example1 2 = Returns top /\
    (Z.of_nat (List.length top) <= 2)%Z /\
    (forall k c, In (k, c) top -> 0 < c) /\
    (forall i j, i <= j -> j < List.length top ->
                 nth j (map snd top) 0 <= nth i (map snd top) 0).
Proof.
  apply (@get_top_skills_bounded_positive_descending Samples.example1 2%Z).
  lia.
Defined.

Lemma get_top_skills_length_witness :
  exists top,
    get_top_skills Samples.example1 2 = Returns top /\
    Z.of_nat (List.length top) =
      Z.min 2 (Z.of_nat (List.length
        (nodup string_dec (List.concat (map keywords_list Samples.example1))))).
Proof.
  apply (@get_top_skills_length Samples.example1 2%Z). lia.
Defined.

(** C7 fails as stated: with [n = 1] and two keywords of equal count, the
    keyword returned is the one the rows bring first, so the two results
    do not hold the same entries. *)
Lemma get_top_skills_tie_at_cut :
  Permutation (map keywords_list Samples.rust_then_go)
              (map keywords_list Samples.go_then_rust) /\
  get_top_skills Samples.rust_then_go 1 = Returns [("rust", 1)] /\
  get_top_skills Samples.go_then_rust 1 = Returns [("go", 1)] /\
  ~ Permutation [("rust", 1)] [("go", 1)].
Proof.
  split; [apply perm_swap |]. split; [reflexivity |]. split; [reflexivity |].
  intros H. apply Permutation_length_1 in H. discriminate H.
Qed.

Lemma get_top_skills_reordering_witness :
  Permutation (map keywords_list Samples.example1)
              (map keywords_list (rev Samples.example1)) /\
  exists top top',
    get_top_skills Samples.example1 1 = Returns top /\
    get_top_skills (rev Samples.example1) 1 = Returns top' /\
    map snd top = map snd top' /\
    Permutation top top'.
Proof.
  assert (Permutation (map keywords_list Samples.example1)
                      (map keywords_list (rev Samples.example1))) as HP
      by (apply Permutation_map, Permutation_rev).
  split; [exact HP |].
  destruct (@get_top_skills_reordering Samples.example1 (rev Samples.example1) 1%Z HP)
    as (top & top' & H1 & H2 & H3 & _ & _ & H6 & _).
  exists top, top'. repeat split; try assumption.
  apply H6. intros k c k' Hin Hk'.
  injection H1 as <-.
  destruct Hin as [Hin | []]. injection Hin as <- <-.
  simpl in Hk'. unfold Samples.example1, Samples.posting.
  cbn [map List.concat app keywords_list count_occ].
  repeat match goal with
         | |- context [string_dec ?a ?b] => destruct (string_dec a b)
         end; try lia; exfalso; apply Hk'; left; congruence.
Defined.

End Runs.


(** ** Characters: case, white space, commas *)

Section Characters.

Import Text Str.

Ltac each_char c := destruct c as [[] [] [] [] [] [] [] []].

Lemma is_space_lower_char c : is_space (lower_char c) = is_space c.
Proof. each_char c; reflexivity. Qed.

Lemma lower_char_idem c : lower_char (lower_char c) = lower_char c.
Proof. each_char c; reflexivity. Qed.

Lemma lower_char_comma c : lower_char c = ","%char -> c = ","%char.
Proof. each_char c; intros H; cbv in H; try discriminate H; reflexivity. Qed.

Lemma lower_idem s : lower (lower s) = lower s.
Proof.
  induction s as [| c s IH]; simpl; [reflexivity |].
  now rewrite lower_char_idem, IH.
Qed.

Lemma lower_chars s c :
  In c (list_ascii_of_string (lower s)) ->
  exists d, In d (list_ascii_of_string s) /\ c = lower_char d.
Proof.
  induction s as [| a s IH]; simpl; [tauto |].
  intros [<- | H].
  - exists a. auto.
  - destruct (IH H) as (d & Hd & ->). exists d. auto.
Qed.

End Characters.

(** ** [strip] and [split] *)

Section StripSplit.

Import Text Str.
Local Open Scope string_scope.

Local Abbreviation chars := list_ascii_of_string.

Lemma lstrip_lower s : lstrip (lower s) = lower (lstrip s).
Proof.
  induction s as [| c s IH]; simpl; [reflexivity |].
  rewrite is_space_lower_char. destruct (is_space c); [exact IH | reflexivity].
Qed.

Lemma rstrip_lower s : rstrip (lower s) = lower (rstrip s).
Proof.
  induction s as [| c s IH]; simpl; [reflexivity |].
  rewrite IH. destruct (rstrip s); simpl; [| reflexivity].
  rewrite is_space_lower_char. destruct (is_space c); reflexivity.
Qed.

Lemma strip_lower s : strip (lower s) = lower (strip s).
Proof. unfold strip. now rewrite lstrip_lower, rstrip_lower. Qed.

Lemma lstrip_head s c t : lstrip s = String c t -> is_space c = false.
Proof.
  induction s as [| a s IH]; simpl; [discriminate |].
  destruct (is_space a) eqn:E; [exact IH |].
  intros H. injection H as -> _. exact E.
Qed.

Lemma rstrip_head s c t : rstrip s = String c t -> exists t', s = String c t'.
Proof.
  destruct s as [| a s]; simpl; [discriminate |].
  destruct (rstrip s); [destruct (is_space a); [discriminate |] |];
    intros H; injection H as -> _; now exists s.
Qed.

Lemma rstrip_last s : forall t c,
  rstrip s = t ++ String c "" -> is_space c = false.
Proof.
  induction s as [| a s IH]; simpl; intros t c H.
  - destruct t; discriminate H.
  - destruct (rstrip s) as [| d r].
    + destruct (is_space a) eqn:E; [destruct t; discriminate H |].
      destruct t as [| x t]; simpl in H.
      * injection H as ->. exact E.
      * injection H as _ H. destruct t; discriminate H.
    + destruct t as [| x t]; simpl in H; [discriminate H |].
      injection H as _ H. now apply (IH t c).
Qed.

Lemma rstrip_idem s : rstrip (rstrip s) = rstrip s.
Proof.
  induction s as [| a s IH]; [reflexivity |].
  cbn [rstrip]. destruct (rstrip s) as [| d r] eqn:R.
  - destruct (is_space a) eqn:E; [reflexivity |].
    cbn [rstrip]. now rewrite E.
  - change (rstrip (String a (String d r))) with
      (match rstrip (String d r) with
       | "" => if is_space a then "" else String a ""
       | String d' r' => String a (String d' r')
       end).
    now rewrite IH.
Qed.

Lemma strip_idem s : strip (strip s) = strip s.
Proof.
  unfold strip.
  assert (lstrip (rstrip (lstrip s)) = rstrip (lstrip s)) as ->.
  { destruct (rstrip (lstrip s)) as [| c t] eqn:R; [reflexivity |].
    apply rstrip_head in R as [t' R]. apply lstrip_head in R.
    simpl. now rewrite R. }
  apply rstrip_idem.
Qed.

Lemma strip_first s c t : strip s = String c t -> is_space c = false.
Proof.
  unfold strip. intros H. apply rstrip_head in H as [t' H].
  now apply lstrip_head in H.
Qed.

Lemma lstrip_chars s c : In c (chars (lstrip s)) -> In c (chars s).
Proof.
  induction s as [| a s IH]; simpl; [tauto |].
  destruct (is_space a); simpl; tauto.
Qed.

Lemma rstrip_chars s c : In c (chars (rstrip s)) -> In c (chars s).
Proof.
  induction s as [| a s IH]; simpl; [tauto |].
  destruct (rstrip s) as [| d r].
  - destruct (is_space a); simpl; tauto.
  - change (chars (String a (String d r))) with (a :: chars (String d r)).
    simpl. intros [H | H]; [now left | right; now apply IH].
Qed.

Lemma strip_chars s c : In c (chars (strip s)) -> In c (chars s).
Proof. unfold strip. intros H. now apply lstrip_chars, rstrip_chars. Qed.

Lemma lstrip_blank s :
  Forall (fun c => is_space c = true) (chars (lstrip s)) <->
  Forall (fun c => is_space c = true) (chars s).
Proof.
  induction s as [| a s IH]; simpl; [tauto |].
  destruct (is_space a) eqn:E; [| reflexivity].
  rewrite IH. split; [now constructor | now inversion 1].
Qed.

Lemma rstrip_blank s :
  rstrip s = "" <-> Forall (fun c => is_space c = true) (chars s).
Proof.
  induction s as [| a s IH]; simpl; [split; auto |].
  destruct (rstrip s) as [| d r].
  - destruct (is_space a) eqn:E.
    + split; [intros _; constructor; [assumption | now apply IH] | reflexivity].
    + split; [discriminate | inversion 1; congruence].
  - split; [discriminate |]. inversion 1 as [| ? ? _ Hs]. now apply IH in Hs.
Qed.

Lemma strip_blank s :
  strip s = "" <-> Forall (fun c => is_space c = true) (chars s).
Proof. unfold strip. now rewrite rstrip_blank, lstrip_blank. Qed.

Lemma truthy_false s : truthy s = false <-> s = "".
Proof. destruct s; simpl; split; congruence. Qed.

Lemma split_pieces sep s : forall w,
  In w (split sep s) -> ~ In sep (chars w).
Proof.
  induction s as [| c s IH]; simpl; intros w.
  - intros [<- | []]. simpl. tauto.
  - destruct (Ascii.eqb_spec c sep) as [-> | Hc].
    + intros [<- | H]; [simpl; tauto | now apply IH].
    + destruct (split sep s) as [| w0 ws].
      * intros [<- | []]. simpl. intuition congruence.
      * intros [<- | H].
        -- simpl. intros [-> | H]; [congruence |].
           apply (IH w0); [now left | assumption].
        -- apply IH. now right.
Qed.

Lemma split_whole sep s : ~ In sep (chars s) -> split sep s = [s]%list.
Proof.
  induction s as [| c s IH]; simpl; [reflexivity |].
  intros H. destruct (Ascii.eqb_spec c sep) as [-> | Hc]; [tauto |].
  rewrite IH by tauto. reflexivity.
Qed.

Lemma split_forall sep (Q : ascii -> Prop) s :
  (forall w, In w (split sep s) -> Forall Q (chars w)) <->
  Forall (fun c => c = sep \/ Q c) (chars s).
Proof.
  induction s as [| c s IH]; simpl.
  - split; [constructor | intros _ w [<- | []]; constructor].
  - destruct (Ascii.eqb_spec c sep) as [-> | Hc].
    + split.
      * intros H. constructor; [now left |]. apply IH. intros w Hw. apply H. now right.
      * inversion 1 as [| ? ? _ Hs]. intros w [<- | Hw]; [constructor |].
        revert w Hw. now apply IH.
    + destruct (split sep s) as [| w0 ws].
      * split.
        -- intros H. specialize (H _ (or_introl eq_refl)).
           inversion H; subst. constructor; [now right |]. apply IH. intros w [].
        -- inversion 1 as [| ? ? [-> | Hq] _]; [congruence |].
           intros w [<- | []]. repeat constructor. assumption.
      * split.
        -- intros H. pose proof (H _ (or_introl eq_refl)) as H0.
           inversion H0; subst. constructor; [now right |]. apply IH.
           intros w [<- | Hw]; [assumption | apply H; now right].
        -- inversion 1 as [| ? ? [-> | Hq] Hs]; [congruence |].
           rewrite <- IH in Hs.
           intros w [<- | Hw].
           ++ constructor; [assumption |]. apply Hs. now left.
           ++ apply Hs. now right.
Qed.

End StripSplit.

(** ** The keyword lists of [load_data] *)

Section KeywordCells.

Import Text Str LoadData.
Local Open Scope string_scope.

Local Abbreviation chars := list_ascii_of_string.

Lemma keywords_list_origin keywords k :
  In k (keywords_list keywords) ->
  exists w, In w (split "," (fillna "" keywords)) /\
            strip w <> "" /\ k = lower (strip w).
Proof.
  unfold keywords_list. intros H.
  apply in_map_iff in H as (w & <- & H).
  apply filter_In in H as [Hw Ht].
  exists w. repeat split; [assumption |].
  intros E. rewrite E in Ht. discriminate Ht.
Qed.

Lemma keyword_facts keywords k :
  In k (keywords_list keywords) ->
  k <> "" /\ lower k = k /\ strip k = k /\ ~ In ","%char (chars k).
Proof.
  intros H. apply keywords_list_origin in H as (w & Hw & Hne & ->).
  split; [| split; [| split]].
  - destruct (strip w); [congruence | discriminate].
  - apply lower_idem.
  - now rewrite strip_lower, strip_idem.
  - intros Hc. apply lower_chars in Hc as (d & Hd & Hcd).
    symmetry in Hcd. apply lower_char_comma in Hcd. subst d.
    apply strip_chars in Hd. now apply (split_pieces _ _ _ Hw).
Qed.

(** X1: every keyword [load_data] extracts is non-empty, is in lower case,
    neither starts nor ends with white space, and holds no comma. *)
Theorem keywords_list_normalised (keywords : option string) (k : string) :
  In k (keywords_list keywords) ->
  k <> "" /\
  lower k = k /\
  (forall c t, k = String c t -> is_space c = false) /\
  (forall t c, k = t ++ String c "" -> is_space c = false) /\
  ~ In ","%char (chars k).
Proof.
  intros H. apply keyword_facts in H as (Hne & Hl & Hs & Hc).
  repeat split; try assumption.
  - intros c t E. rewrite E in Hs. now apply strip_first in Hs.
  - intros t c E. unfold strip in Hs. rewrite E in Hs at 2.
    now apply rstrip_last in Hs.
Qed.

(** X2: a keywords cell yields no keyword exactly when it is absent or
    holds nothing but commas and white space. *)
Theorem keywords_list_empty_iff (keywords : option string) :
  keywords_list keywords = []%list <->
  Forall (fun c => c = ","%char \/ is_space c = true)
         (chars (fillna "" keywords)).
Proof.
  unfold keywords_list.
  rewrite <- (split_forall ","%char (fun c => is_space c = true)).
  split.
  - intros H w Hw. apply map_eq_nil in H.
    rewrite filter_nil_iff in H. specialize (H w Hw).
    now apply strip_blank, truthy_false.
  - intros H.
    assert (filter (fun k => truthy (strip k)) (split "," (fillna "" keywords))
            = []%list) as ->; [| reflexivity].
    apply filter_nil_iff. intros w Hw.
    now apply truthy_false, strip_blank, H.
Qed.

(** X3: an extracted keyword is a fixed point of the extraction: read as
    a cell of its own it yields itself and nothing else. *)
Theorem keywords_list_reparse (keywords : option string) (k : string) :
  In k (keywords_list keywords) ->
  keywords_list (Some k) = [k]%list.
Proof.
  intros H. apply keyword_facts in H as (Hne & Hl & Hs & Hc).
  unfold keywords_list. simpl fillna.
  rewrite split_whole by assumption. simpl.
  rewrite Hs. destruct k as [| c k]; [congruence |]. simpl truthy. cbn [map].
  now rewrite Hs, Hl.
Qed.

End KeywordCells.

(** ** Salary mentions *)

Section Salary.

Import Codepoints.

Lemma search_at_spec matches : forall s,
  search_at matches s = true <->
  exists a s', s = a ++ s' /\ matches s' = true.
Proof.
  induction s as [| c s IH]; simpl; rewrite orb_true_iff.
  - split.
    + intros [H | H]; [| discriminate]. now exists [], [].
    + intros ([| c a] & s' & H & Hm); simpl in H; [| discriminate].
      subst s'. now left.
  - rewrite IH. split.
    + intros [H | (a & s' & -> & Hm)].
      * now exists [], (c :: s).
      * now exists (c :: a), s'.
    + intros ([| c' a] & s' & H & Hm); simpl in H.
      * subst s'. now left.
      * injection H as -> ->. right. now exists a, s'.
Qed.

Lemma Forall2_map_right_in (A B : Type) (f : A -> B) (R : A -> B -> Prop) l :
  (forall x, In x l -> R x (f x)) -> Forall2 R l (map f l).
Proof.
  induction l as [| x l IH]; intros H; simpl; constructor.
  - apply H. now left.
  - apply IH. intros y Hy. apply H. now right.
Qed.

Variable is_decimal : N -> bool.

Lemma dollar_digit_at_spec s :
  LoadData.dollar_digit_at is_decimal s = true <->
  exists d b, s = dollar :: d :: b /\ is_decimal d = true.
Proof.
  unfold LoadData.dollar_digit_at. destruct s as [| c [| d b]].
  - split; [discriminate | intros (d & b & H & _); discriminate].
  - split; [discriminate | intros (d & b & H & _); discriminate].
  - rewrite andb_true_iff, N.eqb_eq. split.
    + intros [-> Hd]. now exists d, b.
    + intros (d' & b' & H & Hd). injection H as -> -> ->. now split.
Qed.

Lemma has_salary_spec (job_description : option text) :
  LoadData.has_salary is_decimal job_description = true <->
  exists s a d b,
    job_description = Some s /\
    s = a ++ dollar :: d :: b /\
    is_decimal d = true.
Proof.
  unfold LoadData.has_salary. rewrite search_at_spec. split.
  - intros (a & s' & Hs & Hm).
    apply dollar_digit_at_spec in Hm as (d & b & -> & Hd).
    destruct job_description as [s |]; simpl in Hs.
    + now exists s, a, d, b.
    + destruct a; discriminate Hs.
  - intros (s & a & d & b & -> & -> & Hd). simpl.
    exists a, (dollar :: d :: b). split; [reflexivity |].
    apply dollar_digit_at_spec. now exists d, b.
Qed.

(** X4: [has_salary] is true exactly when the job description holds a
    dollar sign directly followed by a decimal digit, that is a character
    of the class [\d]; an absent description gives false. *)
Theorem has_salary_characterised (job_description : option text) :
  (LoadData.has_salary is_decimal job_description = true <->
   exists s a d b,
     job_description = Some s /\
     s = a ++ dollar :: d :: b /\
     is_decimal d = true) /\
  LoadData.has_salary is_decimal None = false.
Proof. split; [apply has_salary_spec | reflexivity]. Qed.

Lemma has_salary_cell_matches (s : text) :
  (forall d, (d < 256)%N -> is_decimal d = true -> is_ascii_digit d = true) ->
  Forall (fun c => (c < 256)%N) s ->
  LoadData.has_salary is_decimal (Some s) = true ->
  EdaKeywords.matches_salary_pattern (Some s) = true.
Proof.
  intros Hdigits Hlatin H.
  apply has_salary_spec in H as (s0 & a & d & b & Hs & Hs0 & Hd).
  injection Hs as <-. subst s.
  unfold EdaKeywords.matches_salary_pattern. apply search_at_spec.
  exists a, (dollar :: d :: b). split; [reflexivity |].
  unfold EdaKeywords.dollar_amount_at.
  rewrite N.eqb_refl. simpl. apply orb_true_iff. left.
  apply Hdigits; [| assumption].
  rewrite Forall_forall in Hlatin. apply Hlatin.
  apply in_or_app. right. right. now left.
Qed.

(** X5: over job descriptions made of code points below 256, among which
    the only decimal digits are 0 to 9, a description that [dashboard.py]
    flags as mentioning a salary is also counted by the salary pattern of
    [eda.py], which does not raise on a column that holds one. *)
Theorem has_salary_implies_mentions_salary
        (job_descriptions : list (option text)) :
  (forall d, (d < 256)%N -> is_decimal d = true -> is_ascii_digit d = true) ->
  (forall s, In (Some s) job_descriptions -> Forall (fun c => (c < 256)%N) s) ->
  (exists job_description,
      In job_description job_descriptions /\
      LoadData.has_salary is_decimal job_description = true) ->
  exists flags,
    EdaKeywords.mentions_salary job_descriptions = Returns flags /\
    Forall2 (fun job_description flag =>
               LoadData.has_salary is_decimal job_description = true -> flag = true)
            job_descriptions flags.
Proof.
  intros Hdigits Hlatin (jd & Hin & Hjd).
  exists (map EdaKeywords.matches_salary_pattern job_descriptions). split.
  - apply str_accessor_returns.
    apply has_salary_spec in Hjd as (s & _ & _ & _ & -> & _).
    now apply (holds_text_some _ s).
  - apply Forall2_map_right_in. intros [s |] Hs H.
    + apply has_salary_cell_matches; auto.
    + discriminate H.
Qed.

(** Beyond Latin-1 the two patterns part: a dollar sign followed by a
    decimal digit other than 0 to 9, such as the fullwidth digit one, is a
    salary mention for [dashboard.py] and none for [eda.py]. *)
Lemma salary_patterns_part :
  is_decimal 65297 = true ->
  LoadData.has_salary is_decimal (Some [dollar; 65297%N]) = true /\
  EdaKeywords.mentions_salary [Some [dollar; 65297%N]] = Returns [false].
Proof.
  intros H. split; [| reflexivity].
  unfold LoadData.has_salary. simpl. now rewrite H.
Qed.

End Salary.

(** ** The two scripts side by side *)

Section Mentions.

Import Text Str.
Local Open Scope string_scope.

Local Abbreviation chars := list_ascii_of_string.

(** X6: a location that [dashboard.py] flags as remote is also flagged by
    [eda.py], whose line 108 does not raise on a column that holds such a
    location. *)
Theorem dashboard_remote_implies_eda_remote (locations : list (option string)) :
  (exists location, In location locations /\ Dashboard.is_remote location = true) ->
  exists flags,
    Eda.is_remote locations = Returns flags /\
    Forall2 (fun location flag => Dashboard.is_remote location = true -> flag = true)
            locations flags.
Proof.
  intros (location & Hin & Hd).
  exists (map Eda.contains_remote_keyword locations). split.
  - apply str_accessor_returns.
    apply dashboard_is_remote_spec in Hd as (s & _ & _ & _ & -> & _).
    now apply (holds_text_some _ s).
  - apply Forall2_map_right. intros loc.
    rewrite dashboard_is_remote_spec, contains_remote_keyword_spec.
    intros (s & a & w & b & Hs & Hw & Hl).
    exists s, "remote", a, w, b. repeat split; try assumption. now left.
Qed.

Lemma comma_search s :
  search match_at [","]%list s = true <-> In ","%char (chars s).
Proof.
  induction s as [| c s IH]; [simpl; split; [discriminate | tauto] |].
  cbn [search existsb match_at list_ascii_of_string In].
  rewrite orb_true_iff, IH, orb_false_r, andb_true_r, Ascii.eqb_eq.
  intuition congruence.
Qed.

Lemma lower_truthy s : truthy (lower s) = truthy s.
Proof. destruct s; reflexivity. Qed.

Lemma extract_without_nan (keywords_str : string) :
  EdaKeywords.extract keywords_str =
  filter (fun k => negb (String.eqb k "nan"))
         (LoadData.keywords_list (Some keywords_str)).
Proof.
  unfold EdaKeywords.extract, LoadData.keywords_list. simpl fillna.
  assert ((if search match_at [","]%list keywords_str
           then map (fun k => lower (strip k)) (split "," keywords_str)
           else [lower (strip keywords_str)]%list)
          = map (fun k => lower (strip k)) (split "," keywords_str)) as ->.
  { destruct (search match_at [","]%list keywords_str) eqn:E; [reflexivity |].
    rewrite split_whole; [reflexivity |].
    rewrite <- comma_search, E. discriminate. }
  induction (split "," keywords_str) as [| w l IH]; simpl; [reflexivity |].
  rewrite lower_truthy.
  destruct (truthy (strip w)); simpl; rewrite IH; reflexivity.
Qed.

(** X7: the keywords [eda.py] extracts from a cell are those
    [dashboard.py] extracts from it, in the same order, without the
    entries that read nan. *)
Theorem eda_extract_is_keywords_list_without_nan (keywords_str : string) :
  EdaKeywords.extract keywords_str =
  filter (fun k => negb (String.eqb k "nan"))
         (LoadData.keywords_list (Some keywords_str)).
Proof. apply extract_without_nan. Qed.

End Mentions.

(** ** The sidebar filters *)

Section Filters.

Import Dashboard Main.

Lemma filter_twice (A : Type) (p q : A -> bool) (l : list A) :
  filter q (filter p l) = filter (fun x => p x && q x) l.
Proof.
  induction l as [| a l IH]; simpl; [reflexivity |].
  destruct (p a); simpl; [destruct (q a) |]; now rewrite IH.
Qed.

Lemma filter_everything (A : Type) (l : list A) : filter (fun _ => true) l = l.
Proof. induction l as [| a l IH]; simpl; [| rewrite IH]; reflexivity. Qed.

Lemma apply_filters_is_filter df selected_category remote_option :
  exists keep, apply_filters df selected_category remote_option = filter keep df.
Proof.
  unfold apply_filters.
  destruct (negb (String.eqb selected_category "All"));
    destruct (String.eqb remote_option "Remote Only");
    try destruct (String.eqb remote_option "On-site Only");
    rewrite ?filter_twice; eauto; exists (fun _ => true);
    now rewrite filter_everything.
Qed.

Lemma filter_count (keep : row -> bool) (df : DataFrame) k :
  count_occ string_dec (all_skills (filter keep df)) k <=
  count_occ string_dec (all_skills df) k.
Proof.
  rewrite !all_skills_concat.
  induction df as [| r df IH]; simpl; [lia |].
  destruct (keep r); simpl; rewrite ?count_occ_app; lia.
Qed.

Lemma filter_count_split (keep : row -> bool) (df : DataFrame) k :
  count_occ string_dec (all_skills (filter keep df)) k +
  count_occ string_dec (all_skills (filter (fun r => negb (keep r)) df)) k =
  count_occ string_dec (all_skills df) k.
Proof.
  rewrite !all_skills_concat.
  induction df as [| r df IH]; simpl; [reflexivity |].
  destruct (keep r); simpl; rewrite ?count_occ_app; lia.
Qed.

Lemma filter_rows_split (A : Type) (keep : A -> bool) (l : list A) :
  List.length (filter keep l) + List.length (filter (fun r => negb (keep r)) l) =
  List.length l.
Proof.
  induction l as [| a l IH]; simpl; [reflexivity |].
  destruct (keep a); simpl; lia.
Qed.

(** X8: whatever the sidebar selects, the filtered frame has no more rows
    than the loaded one, and no keyword is reported with a higher count
    than it has in the loaded frame. *)
Theorem filtered_counts_bounded (df : DataFrame)
        (selected_category remote_option : string) (n : Z) :
  List.length (apply_filters df selected_category remote_option) <= List.length df /\
  exists top,
    get_top_skills (apply_filters df selected_category remote_option) n = Returns top /\
    forall k c, In (k, c) top -> c <= count_occ string_dec (all_skills df) k.
Proof.
  destruct (apply_filters_is_filter df selected_category remote_option) as [keep ->].
  split; [apply filter_length_le |].
  eexists. split; [apply get_top_skills_returns |].
  intros k c H. apply most_common_incl, Counter_items in H as [-> _].
  apply filter_count.
Qed.

(** X9: for any category selection, the rows kept under "Remote Only" and
    under "On-site Only" together are as many as the rows kept under
    "All", and every keyword's occurrences split between the two views. *)
Theorem remote_and_onsite_views_split (df : DataFrame)
        (selected_category : string) (k : string) :
  List.length (apply_filters df selected_category "Remote Only") +
  List.length (apply_filters df selected_category "On-site Only") =
  List.length (apply_filters df selected_category "All") /\
  count_occ string_dec (all_skills (apply_filters df selected_category "Remote Only")) k +
  count_occ string_dec (all_skills (apply_filters df selected_category "On-site Only")) k =
  count_occ string_dec (all_skills (apply_filters df selected_category "All")) k.
Proof.
  unfold apply_filters.
  set (view := if negb (String.eqb selected_category "All")
               then filter (fun r => String.eqb (category r) selected_category) df
               else df).
  change (String.eqb "Remote Only" "Remote Only") with true.
  change (String.eqb "On-site Only" "Remote Only") with false.
  change (String.eqb "On-site Only" "On-site Only") with true.
  change (String.eqb "All" "Remote Only") with false.
  change (String.eqb "All" "On-site Only") with false.
  cbv iota.
  assert (forall l : DataFrame,
             filter (fun r => Bool.eqb (is_remote (location r)) false) l =
             filter (fun r => negb (Bool.eqb (is_remote (location r)) true)) l) as E.
  { intros l. apply filter_ext. intros r. now destruct (is_remote (location r)). }
  rewrite E. split; [apply filter_rows_split | apply filter_count_split].
Qed.

End Filters.

(** ** The figures of [main] *)

Section Figures.

Import Dashboard Main.

Variable df : DataFrame.

Local Abbreviation skills_counter := (Py.Counter string_dec (all_skills df)).

Lemma sorted_desc_nil (K : Type) (c : list (K * nat)) :
  Py.sorted_desc c = [] -> c = [].
Proof.
  intros H. pose proof (sorted_desc_perm c) as HP. rewrite H in HP.
  now apply Permutation_nil in HP.
Qed.

Lemma Counter_nil (l : list string) : Py.Counter string_dec l = [] -> l = [].
Proof.
  intros H. pose proof (Counter_sum string_dec l) as Hs. rewrite H in Hs.
  simpl in Hs. destruct l; [reflexivity | discriminate Hs].
Qed.

(** X10: the "Hottest Skill" is ('N/A', 0) when the frame holds no keyword;
    otherwise it is a keyword of the frame, given with its number of
    occurrences, and no keyword occurs more often. *)
Theorem top_skill_is_most_frequent :
  (all_skills df = [] /\ top_skill df = Returns ("N/A"%string, 0)) \/
  (exists k c,
      top_skill df = Returns (k, c) /\
      In k (all_skills df) /\
      c = count_occ string_dec (all_skills df) k /\
      forall k', count_occ string_dec (all_skills df) k' <= c).
Proof.
  unfold top_skill. rewrite get_top_skills_returns.
  rewrite most_common_pos by lia. change (Z.to_nat 1) with 1.
  pose proof (sorted_desc_perm skills_counter) as HP.
  pose proof (sorted_desc_descending skills_counter) as Hd.
  destruct (Py.sorted_desc skills_counter) as [| [k c] rest] eqn:E.
  - left. split; [| reflexivity]. now apply Counter_nil, sorted_desc_nil.
  - right. exists k, c. simpl.
    assert (In (k, c) skills_counter) as Hin
        by (apply (Permutation_in _ HP); now left).
    apply Counter_items in Hin as [Hc Hpos].
    split; [reflexivity |]. split; [| split; [assumption |]].
    + apply (count_occ_In string_dec). lia.
    + intros k'.
      destruct (Nat.eq_dec (count_occ string_dec (all_skills df) k') 0) as [-> | Hk'];
        [lia |].
      assert (In (k', count_occ string_dec (all_skills df) k') ((k, c) :: rest)) as Hin'.
      { apply (Permutation_in _ (Permutation_sym HP)), Counter_items. split; [reflexivity | lia]. }
      destruct Hin' as [Heq | Hin'].
      * injection Heq as _ <-. lia.
      * apply StronglySorted_inv in Hd as [_ Hd]. rewrite Forall_forall in Hd.
        apply (Hd _ Hin').
Qed.

(** X12: the "Unique Skills" figure is the number of distinct keywords of
    the frame as long as there are at most 1000 of them, and 1000 beyond. *)
Theorem unique_skills_capped :
  unique_skills df =
  Returns (Nat.min 1000 (List.length (nodup string_dec (all_skills df)))).
Proof.
  unfold unique_skills. rewrite get_top_skills_returns.
  f_equal. apply Nat2Z.inj.
  rewrite most_common_length by lia.
  rewrite Counter_length. lia.
Qed.

(** X13: a shorter list of top skills is the beginning of a longer one:
    for [0 < n <= m] the result for [n] is the first [n] entries of the
    result for [m]. *)
Theorem get_top_skills_prefix (n m : Z) :
  (0 < n)%Z -> (n <= m)%Z ->
  exists top_n top_m,
    get_top_skills df n = Returns top_n /\
    get_top_skills df m = Returns top_m /\
    top_n = firstn (Z.to_nat n) top_m.
Proof.
  intros Hn Hm. do 2 eexists.
  split; [apply get_top_skills_returns |].
  split; [apply get_top_skills_returns |].
  rewrite !most_common_pos by lia.
  rewrite firstn_firstn. f_equal. lia.
Qed.

(** X14: the skill pairs shown are the [min 10 (number of distinct pairs)]
    most frequent ones: each is given with the number of times the loop
    gathered it, which is positive, and the counts never increase down the
    list. *)
Theorem pair_counts_top_ten :
  List.length (pair_counts df) =
    Nat.min 10 (List.length (nodup pair_dec (skill_pairs df))) /\
  (forall p c, In (p, c) (pair_counts df) ->
               c = count_occ pair_dec (skill_pairs df) p /\ 0 < c) /\
  (forall i j, i <= j -> j < List.length (pair_counts df) ->
               nth j (map snd (pair_counts df)) 0 <=
               nth i (map snd (pair_counts df)) 0).
Proof.
  unfold pair_counts. split; [| split].
  - apply Nat2Z.inj. rewrite most_common_length by lia.
    rewrite Counter_length. lia.
  - intros p c H. now apply most_common_incl, Counter_items in H.
  - intros i j Hij Hj. apply sorted_ge_nth.
    + apply descending_counts, most_common_descending.
    + assumption.
    + now rewrite length_map.
Qed.

End Figures.

(** ** Ties: the keyword seen first wins *)

Section FirstSeen.

Variable K : Type.
Variable K_eq_dec : forall x y : K, {x = y} + {x <> y}.

Local Abbreviation fold_incr := (fold_left (fun c k => Py.incr K_eq_dec k c)).

Lemma keys_incr_extends k c :
  exists extra, map fst (Py.incr K_eq_dec k c) = map fst c ++ extra.
Proof.
  induction c as [| [k0 v] c IH]; simpl.
  - now exists [k].
  - destruct (K_eq_dec k k0).
    + exists []. simpl. now rewrite app_nil_r.
    + destruct IH as [extra IH]. exists extra. simpl. now rewrite IH.
Qed.

Lemma keys_fold_extends l : forall c,
  exists extra, map fst (fold_incr l c) = map fst c ++ extra.
Proof.
  induction l as [| x l IH]; intros c; simpl.
  - exists []. now rewrite app_nil_r.
  - destruct (IH (Py.incr K_eq_dec x c)) as [e1 H1].
    destruct (keys_incr_extends x c) as [e2 H2].
    exists (e2 ++ e1). now rewrite H1, H2, app_assoc.
Qed.

Lemma prefix_before (A : Type) (k : A) (P : list A) : forall E K1 K2,
  P ++ E = K1 ++ k :: K2 -> ~ In k P -> incl P K1.
Proof.
  induction P as [| a P IH]; intros E K1 K2 H Hk; [intros x [] |].
  destruct K1 as [| b K1]; simpl in H; injection H as -> H.
  - exfalso. apply Hk. now left.
  - intros x [<- | Hx]; [now left | right].
    apply (IH E K1 K2 H); [| assumption]. intros Hin. apply Hk. now right.
Qed.

(** The key that sits at some place of the dict was first met in the list
    after nothing but keys that sit before it. *)
Lemma first_seen_order l : forall c K1 k K2,
  map fst (fold_incr l c) = K1 ++ k :: K2 ->
  ~ In k (map fst c) ->
  exists l1 l2, l = l1 ++ k :: l2 /\ ~ In k l1 /\ forall x, In x l1 -> In x K1.
Proof.
  induction l as [| x l IH]; intros c K1 k K2 H Hk; simpl in H.
  - exfalso. apply Hk. rewrite H. apply in_elt.
  - destruct (K_eq_dec x k) as [-> | Hx].
    + exists [], l. simpl. tauto.
    + assert (~ In k (map fst (Py.incr K_eq_dec x c))) as Hk'
          by (rewrite in_keys_incr; intuition congruence).
      destruct (IH _ _ _ _ H Hk') as (l1 & l2 & -> & Hl1 & Hin).
      exists (x :: l1), l2. split; [reflexivity |]. split.
      * simpl. intuition congruence.
      * intros y [<- | Hy]; [| now apply Hin].
        destruct (keys_fold_extends (l1 ++ k :: l2) (Py.incr K_eq_dec x c)) as [e He].
        rewrite He in H. apply (@prefix_before _ k _ e K1 K2 H Hk').
        apply in_keys_incr. now left.
Qed.

(** The first item of the sorted list is the first item of the dict among
    those of the highest count. *)
Lemma sorted_desc_head (c : list (K * nat)) : forall x rest,
  Py.sorted_desc c = x :: rest ->
  exists c1 c2, c = c1 ++ x :: c2 /\ forall y, In y c1 -> snd y < snd x.
Proof.
  induction c as [| a c IH]; simpl; intros x rest H; [discriminate |].
  destruct (Py.sorted_desc c) as [| y s] eqn:E; simpl in H.
  - injection H as <- <-. apply sorted_desc_nil in E. subst c.
    exists [], []. split; [reflexivity | intros y []].
  - destruct (snd y <=? snd a) eqn:L; injection H as <- _.
    + exists [], c. split; [reflexivity | intros z []].
    + apply Nat.leb_gt in L.
      destruct (IH y s eq_refl) as (c1 & c2 & -> & Hlt).
      exists (a :: c1), c2. split; [reflexivity |].
      intros z [<- | Hz]; auto.
Qed.

End FirstSeen.

Section Ties.

Import Dashboard Main.

(** X11: when several keywords share the highest count, the "Hottest
    Skill" is the one met first: no keyword with at least as many
    occurrences occurs in the frame before its first occurrence. *)
Theorem top_skill_first_seen (df : DataFrame) (k : string) (c : nat) (k' : string) :
  top_skill df = Returns (k, c) ->
  all_skills df <> [] ->
  c <= count_occ string_dec (all_skills df) k' ->
  exists l1 l2, all_skills df = l1 ++ k :: l2 /\ ~ In k l1 /\ ~ In k' l1.
Proof.
  unfold top_skill. rewrite get_top_skills_returns.
  rewrite most_common_pos by lia. change (Z.to_nat 1) with 1.
  destruct (Py.sorted_desc (Py.Counter string_dec (all_skills df)))
    as [| x rest] eqn:E; simpl; intros H Hne Hc.
  - exfalso. apply Hne. now apply Counter_nil, sorted_desc_nil.
  - injection H as ->.
    apply sorted_desc_head in E as (c1 & c2 & E & Hlt).
    assert (map fst (Py.Counter string_dec (all_skills df)) =
            map fst c1 ++ k :: map fst c2) as Hkeys
        by (rewrite E, map_app; reflexivity).
    unfold Py.Counter in Hkeys.
    apply first_seen_order in Hkeys as (l1 & l2 & Hl & Hk & Hin); [| simpl; tauto].
    exists l1, l2. repeat split; try assumption.
    intros Hk'. apply Hin, in_map_iff in Hk' as ([k0 v] & Hfst & Hv).
    simpl in Hfst. subst k0. specialize (Hlt _ Hv). simpl in Hlt.
    assert (In (k', v) (Py.Counter string_dec (all_skills df))) as Hitem
        by (rewrite E; apply in_or_app; now left).
    apply Counter_items in Hitem as [-> _]. lia.
Qed.

End Ties.

(** ** Skill pairs and repeated keywords *)

Section Repeats.

Import Dashboard.

(** X15: in a frame none of whose rows repeats a keyword, every pair entry
    has its first keyword strictly smaller than its second. *)
Theorem pair_counts_strict_without_repeats (df : DataFrame) :
  (forall r, In r df -> NoDup (keywords_list r)) ->
  forall a b c, In ((a, b), c) (pair_counts df) -> String.ltb a b = true.
Proof.
  intros Hnd a b c H. apply pair_counts_items in H as [H _].
  apply leb_neq_ltb; [now apply (skill_pairs_ordered df) |].
  intros ->. apply skill_pairs_origin in H as (r & i & j & Hr & Hij & Hj & H).
  apply sorted2_components in H.
  assert (nth i (keywords_list r) EmptyString = nth j (keywords_list r) EmptyString)
    as Heq by (destruct H as [[<- <-] | [<- <-]]; congruence).
  apply (proj1 (NoDup_nth _ _) (Hnd r Hr)) in Heq; lia.
Qed.

(** X16: the loop gathers a pair of a keyword with itself exactly when
    some row holds that keyword at two places. *)
Theorem self_pair_iff_repeated (df : DataFrame) (a : string) :
  In (a, a) (skill_pairs df) <->
  exists r l1 l2 l3,
    In r df /\ keywords_list r = l1 ++ a :: l2 ++ a :: l3.
Proof.
  split.
  - intros H. apply skill_pairs_origin in H as (r & i & j & Hr & Hij & Hj & H).
    apply sorted2_components in H.
    assert (nth i (keywords_list r) EmptyString = a /\
            nth j (keywords_list r) EmptyString = a) as [Hi Hjv]
        by (destruct H as [[-> ->] | [-> ->]]; auto).
    destruct (nth_split (keywords_list r) EmptyString Hj) as (L1 & l3 & HL & Hlen).
    rewrite Hjv in HL.
    assert (nth i L1 EmptyString = a) as Hi'.
    { rewrite HL, app_nth1 in Hi by lia. exact Hi. }
    assert (i < List.length L1) as Hi1 by lia.
    destruct (nth_split L1 EmptyString Hi1) as (l1 & l2 & HL1 & _).
    rewrite Hi' in HL1.
    exists r, l1, l2, l3. split; [assumption |].
    rewrite HL, HL1, <- app_assoc. reflexivity.
  - intros (r & l1 & l2 & l3 & Hr & Hl).
    rewrite skill_pairs_concat. apply in_concat.
    exists (row_pairs (keywords_list r)). split.
    + apply in_map_iff. now exists r.
    + apply in_row_pairs.
      exists (List.length l1), (List.length (l1 ++ a :: l2)).
      rewrite Hl at 1 2 3.
      rewrite nth_middle.
      replace (l1 ++ a :: l2 ++ a :: l3) with ((l1 ++ a :: l2) ++ a :: l3)
        by (rewrite <- app_assoc; reflexivity).
      rewrite nth_middle, sorted2_same.
      rewrite !length_app. simpl. repeat split; lia.
Qed.

End Repeats.

(** ** Loaded frames *)

Section LoadedFrames.

Import Dashboard LoadData.

Lemma top_skills_are_keywords (df : DataFrame) n k c :
  In (k, c) (Py.most_common (Py.Counter string_dec (all_skills df)) n) ->
  In k (all_skills df).
Proof.
  intros H. apply most_common_incl, Counter_items in H as [-> Hc].
  now apply (count_occ_In string_dec).
Qed.

Lemma pair_keywords (df : DataFrame) a b :
  In (a, b) (skill_pairs df) -> In a (all_skills df) /\ In b (all_skills df).
Proof.
  intros H. apply skill_pairs_origin in H as (r & i & j & Hr & Hij & Hj & H).
  assert (forall m, m < List.length (Dashboard.keywords_list r) ->
                    In (nth m (Dashboard.keywords_list r) EmptyString) (all_skills df)) as Hm.
  { intros m Hlt. rewrite all_skills_concat. apply in_concat.
    exists (Dashboard.keywords_list r). split; [now apply in_map | now apply nth_In]. }
  apply sorted2_components in H as [[-> ->] | [-> ->]]; split; apply Hm; lia.
Qed.

Lemma loaded_keyword (rows : list csv_row) k :
  In k (all_skills (load_data rows)) ->
  exists keywords, In k (LoadData.keywords_list keywords).
Proof.
  rewrite all_skills_concat. intros H.
  apply in_concat in H as (l & Hl & H).
  apply in_map_iff in Hl as (r & <- & Hr).
  unfold load_data in Hr. apply in_map_iff in Hr as (raw & <- & _).
  now exists (csv_keywords raw).
Qed.

(** X17: in a frame that [load_data] built, every keyword that
    [get_top_skills] reports and both keywords of every pair entry are
    non-empty, in lower case, free of white space at either end and free
    of commas. *)
Theorem loaded_frame_reports_normalised_keywords (rows : list csv_row) (n : Z) :
  (forall k, In k (all_skills (load_data rows)) ->
             k <> EmptyString /\ Text.lower k = k /\ Str.strip k = k /\
             ~ In ","%char (list_ascii_of_string k)) /\
  (exists top,
      get_top_skills (load_data rows) n = Returns top /\
      forall k c, In (k, c) top -> In k (all_skills (load_data rows))) /\
  (forall a b c, In ((a, b), c) (pair_counts (load_data rows)) ->
                 In a (all_skills (load_data rows)) /\
                 In b (all_skills (load_data rows))).
Proof.
  split; [| split].
  - intros k H. apply loaded_keyword in H as [keywords H].
    now apply keyword_facts in H.
  - eexists. split; [apply get_top_skills_returns |].
    intros k c. apply top_skills_are_keywords.
  - intros a b c H. apply pair_counts_items in H as [H _].
    now apply pair_keywords.
Qed.

End LoadedFrames.

(** ** The keyword streams of the two scripts *)

Section KeywordStreams.

Import LoadData.

Lemma all_keywords_concat (cells : list (option string)) :
  EdaKeywords.all_keywords cells =
  List.concat (map (fun cell => match cell with
                                | Some keywords_str => EdaKeywords.extract keywords_str
                                | None => []
                                end) cells).
Proof.
  unfold EdaKeywords.all_keywords.
  assert (forall acc,
             fold_left (fun acc cell =>
                          match cell with
                          | Some keywords_str => acc ++ EdaKeywords.extract keywords_str
                          | None => acc
                          end) cells acc =
             acc ++ List.concat (map (fun cell => match cell with
                                                  | Some keywords_str =>
                                                      EdaKeywords.extract keywords_str
                                                  | None => []
                                                  end) cells)) as H.
  { induction cells as [| [s |] cells IH]; intros acc; simpl.
    - now rewrite app_nil_r.
    - now rewrite IH, app_assoc.
    - apply IH. }
  apply (H []).
Qed.

Lemma count_occ_without_nan (l : list string) k :
  k <> "nan"%string ->
  count_occ string_dec (filter (fun k => negb (String.eqb k "nan")) l) k =
  count_occ string_dec l k.
Proof.
  intros Hk. induction l as [| x l IH]; [reflexivity |].
  cbn [filter]. destruct (String.eqb_spec x "nan") as [-> | Hx]; cbn [negb].
  - rewrite (count_occ_cons_neq string_dec l) by congruence. exact IH.
  - destruct (string_dec x k) as [-> | Hxk].
    + rewrite !count_occ_cons_eq by reflexivity. now rewrite IH.
    + rewrite !count_occ_cons_neq by assumption. exact IH.
Qed.

(** X18: over the same CSV rows, the keywords [eda.py] gathers are the
    keywords of the frame [load_data] builds, in the same order, without
    the entries that read nan; so every other keyword has the same number
    of occurrences in both scripts. *)
Theorem eda_keywords_are_dashboard_keywords_without_nan (rows : list csv_row) :
  EdaKeywords.all_keywords (map csv_keywords rows) =
    filter (fun k => negb (String.eqb k "nan"))
           (Dashboard.all_skills (load_data rows)) /\
  forall k, k <> "nan"%string ->
    count_occ string_dec (EdaKeywords.all_keywords (map csv_keywords rows)) k =
    count_occ string_dec (Dashboard.all_skills (load_data rows)) k.
Proof.
  assert (EdaKeywords.all_keywords (map csv_keywords rows) =
          filter (fun k => negb (String.eqb k "nan"))
                 (Dashboard.all_skills (load_data rows))) as E.
  { rewrite all_keywords_concat, all_skills_concat. unfold load_data.
    induction rows as [| r rows IH]; simpl; [reflexivity |].
    rewrite filter_app, IH. f_equal.
    destruct (csv_keywords r) as [s |]; [apply extract_without_nan | reflexivity]. }
  split; [exact E |].
  intros k Hk. rewrite E. now apply count_occ_without_nan.
Qed.

End KeywordStreams.

(** ** Skill pairs and the order of keywords and rows *)

Section PairOrder.

Import Dashboard.

Lemma sorted2_sym a b : sorted2 a b = sorted2 b a.
Proof.
  unfold sorted2, String.ltb.
  rewrite (String.compare_antisym a b).
  destruct (String.compare b a) eqn:E; simpl; try reflexivity.
  apply String.compare_eq_iff in E. now subst.
Qed.

Lemma nth_seq_all (A : Type) (d : A) (l : list A) :
  map (fun j => nth j l d) (seq 0 (List.length l)) = l.
Proof.
  induction l as [| x l IH]; simpl; [reflexivity |].
  rewrite <- seq_shift, map_map. simpl. now rewrite IH.
Qed.

Lemma pairs_at_head x l :
  pairs_at (x :: l) 0 = map (sorted2 x) l.
Proof.
  unfold pairs_at. simpl. rewrite Nat.sub_0_r.
  rewrite <- seq_shift, map_map. simpl.
  rewrite <- (nth_seq_all EmptyString l) at 2. now rewrite map_map.
Qed.

Lemma pairs_at_tail x l i : pairs_at (x :: l) (S i) = pairs_at l i.
Proof.
  unfold pairs_at. simpl List.length.
  replace (S (List.length l) - (S i + 1)) with (List.length l - (i + 1)) by lia.
  replace (S i + 1) with (S (i + 1)) by lia.
  rewrite <- seq_shift, map_map. reflexivity.
Qed.

Lemma row_pairs_all skills :
  row_pairs skills = flat_map (pairs_at skills) (seq 0 (List.length skills)).
Proof.
  unfold row_pairs. destruct skills as [| x [| y l]]; reflexivity.
Qed.

(** The pairs of a list, by its first keyword and the rest. *)
Lemma row_pairs_cons x l :
  row_pairs (x :: l) = map (sorted2 x) l ++ row_pairs l.
Proof.
  rewrite !row_pairs_all. simpl List.length. simpl seq. simpl flat_map.
  rewrite pairs_at_head. f_equal.
  rewrite <- seq_shift, flat_map_concat_map, map_map.
  rewrite flat_map_concat_map. f_equal. apply map_ext. intros i.
  apply pairs_at_tail.
Qed.

Lemma row_pairs_perm skills skills' :
  Permutation skills skills' ->
  Permutation (row_pairs skills) (row_pairs skills').
Proof.
  induction 1 as [| x l l' HP IH | x y l | l l' l'' HP IH HP' IH'].
  - reflexivity.
  - rewrite !row_pairs_cons. apply Permutation_app; [now apply Permutation_map | exact IH].
  - rewrite !row_pairs_cons. simpl. rewrite (sorted2_sym y x).
    constructor. rewrite !app_assoc. apply Permutation_app_tail, Permutation_app_comm.
  - now transitivity (row_pairs l').
Qed.

Lemma skill_pairs_rows_perm (df df' : DataFrame) :
  Forall2 (fun r r' => Permutation (keywords_list r) (keywords_list r')) df df' ->
  Permutation (skill_pairs df) (skill_pairs df').
Proof.
  rewrite !skill_pairs_concat.
  induction 1 as [| r r' df df' Hr Hdf IH]; simpl; [reflexivity |].
  apply Permutation_app; [now apply row_pairs_perm | exact IH].
Qed.

(** X19: the order of the keywords inside the rows does not matter to the
    pair counts: if every row of one frame holds the keywords of the
    corresponding row of another in some order, each pair is gathered the
    same number of times in both. *)
Theorem pair_counts_ignore_keyword_order (df df' : DataFrame) :
  Forall2 (fun r r' => Permutation (keywords_list r) (keywords_list r')) df df' ->
  forall p, count_occ pair_dec (skill_pairs df) p =
            count_occ pair_dec (skill_pairs df') p.
Proof.
  intros H. apply (Permutation_count_occ pair_dec). now apply skill_pairs_rows_perm.
Qed.

(** X20: the order of the rows does not matter to the pair counts either:
    two frames whose keyword lists are a reordering of one another gather
    each pair the same number of times. *)
Theorem pair_counts_ignore_row_order (df df' : DataFrame) :
  Permutation (map keywords_list df) (map keywords_list df') ->
  forall p, count_occ pair_dec (skill_pairs df) p =
            count_occ pair_dec (skill_pairs df') p.
Proof.
  intros H. apply (Permutation_count_occ pair_dec).
  rewrite !skill_pairs_concat.
  rewrite <- !(map_map keywords_list row_pairs).
  apply Permutation_concat. now apply Permutation_map.
Qed.

End PairOrder.

(** ** Further runs *)

Section MoreRuns.

Import Dashboard.
Local Open Scope string_scope.

Lemma keywords_list_normalised_witness :
  In "python" (LoadData.keywords_list (Some " Python , AWS,, docker ")) /\
  ("python" <> "" /\
   Text.lower "python" = "python" /\
   (forall c t, "python" = String c t -> Str.is_space c = false) /\
   (forall t c, "python" = t ++ String c "" -> Str.is_space c = false) /\
   ~ In ","%char (list_ascii_of_string "python")).
Proof.
  assert (In "python" (LoadData.keywords_list (Some " Python , AWS,, docker ")))
    as H by (left; reflexivity).
  split; [exact H |].
  exact (@keywords_list_normalised (Some " Python , AWS,, docker ") "python" H).
Defined.

Lemma keywords_list_reparse_witness :
  LoadData.keywords_list (Some " Python , AWS,, docker ") =
    ["python"; "aws"; "docker"]%list /\
  LoadData.keywords_list (Some "aws") = ["aws"]%list.
Proof.
  split; [reflexivity |].
  apply (@keywords_list_reparse (Some " Python , AWS,, docker ") "aws").
  right. left. reflexivity.
Defined.

(** The description "Pay $120", by code points, above an empty cell. *)
Lemma has_salary_implies_mentions_salary_witness :
  LoadData.has_salary Codepoints.is_ascii_digit
                      (Some [80; 97; 121; 32; 36; 49; 50; 48]%N) = true /\
  exists flags,
    EdaKeywords.mentions_salary [Some [80; 97; 121; 32; 36; 49; 50; 48]%N; None]%list
      = Returns flags /\
    Forall2 (fun job_description flag =>
               LoadData.has_salary Codepoints.is_ascii_digit job_description = true ->
               flag = true)
            [Some [80; 97; 121; 32; 36; 49; 50; 48]%N; None]%list flags.
Proof.
  split; [reflexivity |].
  apply (@has_salary_implies_mentions_salary Codepoints.is_ascii_digit).
  - intros d _ H. exact H.
  - intros s [H | [H | []]]; [| discriminate H].
    injection H as <-. repeat constructor.
  - exists (Some [80; 97; 121; 32; 36; 49; 50; 48]%N).
    split; [now left | reflexivity].
Defined.

Lemma dashboard_remote_implies_eda_remote_witness :
  Dashboard.is_remote (Some "Remote (US)") = true /\
  exists flags,
    Eda.is_remote [Some "Remote (US)"; None; Some "Berlin"]%list = Returns flags /\
    Forall2 (fun location flag => Dashboard.is_remote location = true -> flag = true)
            [Some "Remote (US)"; None; Some "Berlin"]%list flags.
Proof.
  split; [reflexivity |].
  apply (@dashboard_remote_implies_eda_remote
           [Some "Remote (US)"; None; Some "Berlin"]%list).
  exists (Some "Remote (US)"). split; [now left | reflexivity].
Defined.


Lemma top_skill_first_seen_witness :
  Main.top_skill Samples.go_then_rust = Returns ("go", 1) /\
  exists l1 l2,
    all_skills Samples.go_then_rust = (l1 ++ "go" :: l2)%list /\
    ~ In "go" l1 /\ ~ In "rust" l1.
Proof.
  split; [reflexivity |].
  apply (@top_skill_first_seen Samples.go_then_rust "go" 1 "rust").
  - reflexivity.
  - discriminate.
  - simpl. lia.
Defined.

Lemma get_top_skills_prefix_witness :
  exists top_n top_m,
    get_top_skills Samples.example1 1 = Returns top_n /\
    get_top_skills Samples.example1 20 = Returns top_m /\
    top_n = firstn (Z.to_nat 1) top_m.
Proof.
  apply (@get_top_skills_prefix Samples.example1 1%Z 20%Z); lia.
Defined.

Lemma pair_counts_strict_without_repeats_witness :
  In (("aws", "python"), 1) (pair_counts Samples.example2) /\
  String.ltb "aws" "python" = true.
Proof.
  assert (In (("aws", "python"), 1) (pair_counts Samples.example2)) as H
      by (left; reflexivity).
  split; [exact H |].
  apply (@pair_counts_strict_without_repeats Samples.example2) with (c := 1);
    [| exact H].
  intros r [<- | []]. simpl.
  constructor; [simpl; intuition discriminate |].
  constructor; [simpl; tauto | constructor].
Defined.

Lemma pair_counts_ignore_keyword_order_witness :
  Forall2 (fun r r' => Permutation (keywords_list r) (keywords_list r'))
          [Samples.posting ["go"; "rust"; "aws"]]%list
          [Samples.posting ["aws"; "go"; "rust"]]%list /\
  forall p,
    count_occ pair_dec (skill_pairs [Samples.posting ["go"; "rust"; "aws"]]%list) p =
    count_occ pair_dec (skill_pairs [Samples.posting ["aws"; "go"; "rust"]]%list) p.
Proof.
  assert (Forall2 (fun r r' => Permutation (keywords_list r) (keywords_list r'))
                  [Samples.posting ["go"; "rust"; "aws"]]%list
                  [Samples.posting ["aws"; "go"; "rust"]]%list) as H.
  { constructor; [| constructor]. simpl.
    apply Permutation_sym, (Permutation_cons_app ["go"; "rust"]%list []%list).
    rewrite app_nil_r. reflexivity. }
  split; [exact H |].
  exact (@pair_counts_ignore_keyword_order _ _ H).
Defined.

Lemma pair_counts_ignore_row_order_witness :
  Permutation
    (map keywords_list [Samples.posting ["go"; "rust"]; Samples.posting ["aws"; "go"]]%list)
    (map keywords_list [Samples.posting ["aws"; "go"]; Samples.posting ["go"; "rust"]]%list) /\
  forall p,
    count_occ pair_dec
      (skill_pairs [Samples.posting ["go"; "rust"]; Samples.posting ["aws"; "go"]]%list) p =
    count_occ pair_dec
      (skill_pairs [Samples.posting ["aws"; "go"]; Samples.posting ["go"; "rust"]]%list) p.
Proof.
  assert (Permutation
            (map keywords_list
                 [Samples.posting ["go"; "rust"]; Samples.posting ["aws"; "go"]]%list)
            (map keywords_list
                 [Samples.posting ["aws"; "go"]; Samples.posting ["go"; "rust"]]%list)) as H
      by apply perm_swap.
  split; [exact H |].
  exact (@pair_counts_ignore_row_order _ _ H).
Defined.

End MoreRuns.
